(** * Service state aggregation of edge-containers-cli

    A shallow embedding of [K8sCommands._get_services], [K8sCommands.ps] and
    [K8sCommands.monitor] (src/edge_containers_cli/cmds/k8s_commands.py) and
    of the polars data-frame operations they are written with, followed by
    the properties of the aggregation that the specification states. *)

From Stdlib Require Import List String ZArith Bool Lia.
From Stdlib Require Import Ascii.
Import ListNotations.
Local Open Scope string_scope.
Local Open Scope list_scope.

(* ===================================================================== *)
(** ** polars data frames *)
(* ===================================================================== *)

Module Polars.

(** A cell of a frame.  [Null] is polars' missing value: it is what a left
    join leaves in the right-hand columns of an unmatched row. *)
Inductive value : Type :=
| Null
| Str (s : string)
| Int (z : Z)
| Boolean (b : bool).

Definition row : Type := list value.

(** A frame: the column names in order and the rows in order, every row
    holding one cell per column. *)
Record DataFrame : Type := mkDataFrame {
  columns : list string;
  rows : list row
}.

Definition value_eqb (a b : value) : bool :=
  match a, b with
  | Null, Null => true
  | Str s, Str t => String.eqb s t
  | Int x, Int y => Z.eqb x y
  | Boolean x, Boolean y => Bool.eqb x y
  | _, _ => false
  end.

(** [polars.DataFrame()] *)
Definition empty : DataFrame := mkDataFrame [] [].

(** [df.is_empty()]: the frame has no row. *)
Definition is_empty (df : DataFrame) : bool :=
  match rows df with
  | [] => true
  | _ :: _ => false
  end.

Definition has_column (cols : list string) (c : string) : bool :=
  existsb (String.eqb c) cols.

(** The cell of row [r] under column [c], for a row laid out as [cols]. *)
Fixpoint get (cols : list string) (c : string) (r : row) : value :=
  match cols, r with
  | c' :: cols', v :: r' => if String.eqb c c' then v else get cols' c r'
  | _, _ => Null
  end.

(** The row [r] with the cell under [c] replaced by [v], or with [v] appended
    as a new last cell when [cols] has no column [c]. *)
Fixpoint set (cols : list string) (c : string) (v : value) (r : row) : row :=
  match cols, r with
  | c' :: cols', w :: r' =>
      if String.eqb c c' then v :: r' else w :: set cols' c v r'
  | _, _ => r ++ [v]
  end.

(** The row [r] without its cell under [c]. *)
Fixpoint unset (cols : list string) (c : string) (r : row) : row :=
  match cols, r with
  | c' :: cols', w :: r' =>
      if String.eqb c c' then r' else w :: unset cols' c r'
  | _, _ => r
  end.

Definition remove_column (cols : list string) (c : string) : list string :=
  filter (fun c' => negb (String.eqb c c')) cols.

(** [polars.concat([a, b], how="diagonal")]: the rows of [a] followed by the
    rows of [b], over the union of the columns; a column missing on one side
    is filled with nulls.  No row is merged or dropped. *)
Definition concat_diagonal (a b : DataFrame) : DataFrame :=
  let cols :=
    columns a ++ filter (fun c => negb (has_column (columns a) c)) (columns b) in
  mkDataFrame cols
    (map (fun r => map (fun c => get (columns a) c r) cols) (rows a)
     ++ map (fun r => map (fun c => get (columns b) c r) cols) (rows b)).

(** Join keys: a null key matches nothing. *)
Definition key_match (k k' : value) : bool :=
  match k with
  | Null => false
  | _ => value_eqb k k'
  end.

(** [l.join(r, on=on, how="left")]: every row of [l], in order, once per row
    of [r] with the same key (in the order of [r]), extended with that row's
    other cells; a row of [l] without a match is kept once, extended with
    nulls.  A right-hand column whose name the left frame already has is
    renamed with the suffix [_right]. *)
Definition join_left (l r : DataFrame) (on : string) : DataFrame :=
  let rcols := remove_column (columns r) on in
  mkDataFrame
    (columns l
     ++ map (fun c => if has_column (columns l) c then String.append c "_right" else c) rcols)
    (flat_map
       (fun lr =>
          match
            filter (fun rr => key_match (get (columns l) on lr) (get (columns r) on rr))
                   (rows r)
          with
          | [] => [lr ++ map (fun _ => Null) rcols]
          | matches =>
              map (fun rr => lr ++ map (fun c => get (columns r) c rr) rcols) matches
          end)
       (rows l)).

(** A polars expression, evaluated on one row of a frame with the given
    columns. *)
Definition expr : Type := list string -> row -> value.

(** [polars.col(c)] *)
Definition col (c : string) : expr := fun cols r => get cols c r.

(** [polars.lit(v)] *)
Definition lit (v : value) : expr := fun _ _ => v.

(** [e.replace({old: new}, default=default)]: [old] becomes [new], every
    other value, null included, becomes [default]. *)
Definition replace (e : expr) (old new default : value) : expr :=
  fun cols r => if value_eqb (e cols r) old then new else default.

(** [e.fill_null(v)] *)
Definition fill_null (e : expr) (v : value) : expr :=
  fun cols r =>
    match e cols r with
    | Null => v
    | w => w
    end.

(** [e.str.slice(offset, length)] *)
Definition str_slice (e : expr) (offset length : nat) : expr :=
  fun cols r =>
    match e cols r with
    | Str s => Str (substring offset length s)
    | _ => Null
    end.

(** [e.eq(v)] *)
Definition eq (e : expr) (v : value) : expr :=
  fun cols r =>
    match e cols r with
    | Null => Null
    | w => Boolean (value_eqb w v)
    end.

(** [df.with_columns(...)]: each named expression is evaluated on the frame
    as it was; its values replace the column of that name, or are appended
    as a new column. *)
Definition with_columns (df : DataFrame) (es : list (string * expr)) : DataFrame :=
  mkDataFrame
    (fold_left
       (fun cols ce => if has_column cols (fst ce) then cols else cols ++ [fst ce])
       es (columns df))
    (map
       (fun r =>
          snd (fold_left
                 (fun st ce =>
                    (if has_column (fst st) (fst ce) then fst st else fst st ++ [fst ce],
                     set (fst st) (fst ce) (snd ce (columns df) r) (snd st)))
                 es (columns df, r)))
       (rows df)).

(** [df.rename({old: new})]: [None] where polars raises, a name to replace
    being no column of the frame. *)
Definition rename (df : DataFrame) (m : list (string * string)) : option DataFrame :=
  if forallb (fun on => has_column (columns df) (fst on)) m then
    Some (mkDataFrame
            (map (fun c =>
                    match find (fun on => String.eqb c (fst on)) m with
                    | Some on => snd on
                    | None => c
                    end)
                 (columns df))
            (rows df))
  else None.

(** [df.select(cols)] *)
Definition select (df : DataFrame) (cols : list string) : DataFrame :=
  mkDataFrame cols (map (fun r => map (fun c => get (columns df) c r) cols) (rows df)).

(** [df.filter(e)]: the rows on which [e] is true, in order. *)
Definition filter (df : DataFrame) (e : expr) : DataFrame :=
  mkDataFrame (columns df)
    (List.filter (fun r => value_eqb (e (columns df) r) (Boolean true)) (rows df)).

(** [df.drop_in_place(c)], as its effect on the frame. *)
Definition drop_in_place (df : DataFrame) (c : string) : DataFrame :=
  mkDataFrame (remove_column (columns df) c)
    (map (unset (columns df) c) (rows df)).

(** The values of one column, top to bottom. *)
Definition column (df : DataFrame) (c : string) : list value :=
  map (get (columns df) c) (rows df).

End Polars.

Abbreviation DataFrame := Polars.DataFrame.
Abbreviation Null := Polars.Null.
Abbreviation Str := Polars.Str.
Abbreviation Int := Polars.Int.
Abbreviation Boolean := Polars.Boolean.

(* ===================================================================== *)
(** ** The cluster, the shell and the effects of a command *)
(* ===================================================================== *)

(** The two workload kinds the aggregation asks for, in the order of
    [for resource in ["deployment", "statefulset"]]. *)
Inductive resource : Type :=
| deployment
| statefulset.

(** The external commands [_get_services] hands to [shell.run_command]. *)
Inductive command : Type :=
| kubectl_get (r : resource)
| kubectl_get_pods
| helm_list.

(** One line of [kubectl get pods ... jsonpath_pod_info]: the service name,
    the pod's state and its restart count (empty, hence null, for a pod that
    has no container status yet). *)
Record pod : Type := mkPod {
  pod_name : string;
  pod_running : string;
  pod_restarts : option Z
}.

(** One object of [helm list -o json], with the three fields the aggregation
    uses; the others are dropped by the final [select]. *)
Record release : Type := mkRelease {
  release_name : string;
  app_version : string;
  updated : string
}.

(** What the cluster answers to each command, as the parsed lines of its
    output.  An empty list stands for an empty output, which Python's [if]
    takes as false. *)
Record Cluster : Type := mkCluster {
  workloads : resource -> list (string * string);
  pods : list pod;
  releases : list release
}.

(** The exceptions a command ends with: [typer.Exit(code)], and an exception
    raised inside polars. *)
Inductive exn : Type :=
| typer_Exit (exit_code : Z)
| polars_exception.

(** [typer.Exit()]: the exit code defaults to 0. *)
Definition typer_Exit_default : exn := typer_Exit 0.

(** What a command does that can be observed from outside, in order: the
    external commands it runs and what it prints, and for the monitor what
    it displays, its waits between two polls and its stop. *)
Inductive event : Type :=
| Ran (c : command)
| Printed (text : string)
| PrintedFrame (df : DataFrame)
| Displayed (df : DataFrame)
| DisplayedNoRunning
| Slept
| Stopped.

Inductive result (A : Type) : Type :=
| Returned (a : A)
| Raised (e : exn).

Arguments Returned {A} a.
Arguments Raised {A} e.

(** A computation: the events it caused and how it ended. *)
Definition M (A : Type) : Type := list event * result A.

Definition ret {A : Type} (a : A) : M A := ([], Returned a).

Definition bind {A B : Type} (m : M A) (f : A -> M B) : M B :=
  match m with
  | (tr, Returned a) => let (tr', r) := f a in (tr ++ tr', r)
  | (tr, Raised e) => (tr, Raised e)
  end.

Definition raise {A : Type} (e : exn) : M A := ([], Raised e).

Definition emit (e : event) : M unit := ([e], Returned tt).

Notation "x <- m ;; k" := (bind m (fun x => k))
  (at level 61, m at next level, right associativity).
Notation "m ;; k" := (bind m (fun _ => k))
  (at level 61, right associativity).

Definition trace {A : Type} (m : M A) : list event := fst m.
Definition outcome {A : Type} (m : M A) : result A := snd m.

(** [print(text)] *)
Definition print (text : string) : M unit := emit (Printed text).

(** [print(df)] *)
Definition print_frame (df : DataFrame) : M unit := emit (PrintedFrame df).

(** [shell.run_command("kubectl get {resource} ...", interactive=False)] *)
Definition run_kubectl_get (k : Cluster) (r : resource) : M (list (string * string)) :=
  emit (Ran (kubectl_get r)) ;; ret (workloads k r).

(** [shell.run_command("kubectl get pods ...", interactive=False)] *)
Definition run_kubectl_get_pods (k : Cluster) : M (list pod) :=
  emit (Ran kubectl_get_pods) ;; ret (pods k).

(** [shell.run_command("helm list ... -o json", interactive=False)] *)
Definition run_helm_list (k : Cluster) : M (list release) :=
  emit (Ran helm_list) ;; ret (releases k).

(** Python's truth value of a command output: false when it is empty. *)
Definition truthy {A : Type} (out : list A) : bool :=
  match out with
  | [] => false
  | _ :: _ => true
  end.

(** A text field as [polars.read_csv] reads it: an empty field is null. *)
Definition csv_field (s : string) : Polars.value :=
  match s with
  | EmptyString => Null
  | String _ _ => Str s
  end.

(** [polars.read_csv(..., has_header=False, new_columns=["name", "image"])] *)
Definition read_csv_deploy_info (out : list (string * string)) : DataFrame :=
  Polars.mkDataFrame ["name"; "image"]
    (map (fun ni => [csv_field (fst ni); csv_field (snd ni)]) out).

Definition opt_int (z : option Z) : Polars.value :=
  match z with
  | Some n => Int n
  | None => Null
  end.

(** [polars.read_csv(..., has_header=False,
    new_columns=["name", "running", "restarts"])] *)
Definition read_csv_pod_info (out : list pod) : DataFrame :=
  Polars.mkDataFrame ["name"; "running"; "restarts"]
    (map (fun p =>
            [csv_field (pod_name p); csv_field (pod_running p); opt_int (pod_restarts p)])
         out).

(** [polars.read_json(StringIO(str(helm_out)))]: the columns are those of
    the objects listed, so the frame of an empty listing has no column. *)
Definition read_json_helm (out : list release) : DataFrame :=
  match out with
  | [] => Polars.empty
  | _ :: _ =>
      Polars.mkDataFrame ["name"; "app_version"; "updated"]
        (map (fun h => [Str (release_name h); Str (app_version h); Str (updated h)]) out)
  end.

(** A result of polars, or the exception in its place. *)
Definition polars {A : Type} (r : option A) : M A :=
  match r with
  | Some a => ret a
  | None => raise polars_exception
  end.

(* ===================================================================== *)
(** ** K8sCommands *)
(* ===================================================================== *)

(** The loop [for resource in ["deployment", "statefulset"]] of
    [_get_services], started on the frame built so far. *)
Fixpoint get_workloads (k : Cluster) (rs : list resource) (services_df : DataFrame)
  : M DataFrame :=
  match rs with
  | [] => ret services_df
  | r :: rs' =>
      kubectl_res <- run_kubectl_get k r ;;
      get_workloads k rs'
        (if truthy kubectl_res
         then Polars.concat_diagonal services_df (read_csv_deploy_info kubectl_res)
         else services_df)
  end.

(** [K8sCommands._get_services(self, all)] *)
Definition _get_services (k : Cluster) (all : bool) : M DataFrame :=
  services_df <- get_workloads k [deployment; statefulset] Polars.empty ;;
  if Polars.is_empty services_df then
    print "No deployed services found" ;;
    raise typer_Exit_default
  else
    kubectl_gtpo <- run_kubectl_get_pods k ;;
    services_df <-
      (if truthy kubectl_gtpo then
         let gtpo_df := read_csv_pod_info kubectl_gtpo in
         let services_df := Polars.join_left services_df gtpo_df "name" in
         ret (Polars.with_columns services_df
                [("running",
                  Polars.replace (Polars.col "running")
                    (Str "Running") (Boolean true) (Boolean false));
                 ("restarts", Polars.fill_null (Polars.col "restarts") (Int 0))])
       else if all then
         ret (Polars.with_columns services_df
                [("running", Polars.lit (Boolean false));
                 ("restarts", Polars.lit (Int 0))])
       else
         print "No running services found" ;;
         raise typer_Exit_default) ;;
    helm_out <- run_helm_list k ;;
    let helm_df := read_json_helm helm_out in
    helm_df <-
      polars (Polars.rename helm_df [("app_version", "version"); ("updated", "deployed")]) ;;
    let helm_df :=
      Polars.with_columns helm_df
        [("deployed", Polars.str_slice (Polars.col "deployed") 0 19)] in
    let services_df := Polars.join_left services_df helm_df "name" in
    let services_df :=
      Polars.select services_df
        ["name"; "version"; "running"; "restarts"; "deployed"; "image"] in
    ret (if negb all
         then Polars.filter services_df (Polars.eq (Polars.col "running") (Boolean true))
         else services_df).

(** [K8sCommands.ps(self, all, wide)] *)
Definition ps (k : Cluster) (all wide : bool) : M unit :=
  services_df <- _get_services k all ;;
  print_frame (if negb wide
               then Polars.drop_in_place services_df "image"
               else services_df).

(** The exit status of the process that ran a command: typer ends the
    process with the code of the [typer.Exit] that reaches it, with 0 when
    the command returns, and with 1 on any other exception. *)
Definition exit_status {A : Type} (m : M A) : Z :=
  match outcome m with
  | Returned _ => 0%Z
  | Raised (typer_Exit code) => code
  | Raised polars_exception => 1%Z
  end.

(** The two failures of the aggregation, by the names the specification
    gives them.  In the code both are a [typer.Exit()]; what tells them
    apart is the line printed just before it is raised. *)
Inductive AggregateError : Type :=
| EmptyClusterError
| NoRunningServicesError.

Definition message (e : AggregateError) : string :=
  match e with
  | EmptyClusterError => "No deployed services found"
  | NoRunningServicesError => "No running services found"
  end.

(** The failure a computation ended with, if it ended with one of the two. *)
Definition failure {A : Type} (m : M A) : option AggregateError :=
  match outcome m with
  | Returned _ => None
  | Raised _ =>
      match last (trace m) Stopped with
      | Printed text =>
          if String.eqb text (message EmptyClusterError) then Some EmptyClusterError
          else if String.eqb text (message NoRunningServicesError)
               then Some NoRunningServicesError
               else None
      | _ => None
      end
  end.

(** Modelled from the spec: what the monitor shows between two polls
    (section 4.3), the table of the last snapshot or the transient state
    "no running services". *)
Inductive view : Type :=
| Table (df : DataFrame)
| NoRunningServices.

Definition display (v : view) : M unit :=
  match v with
  | Table df => emit (Displayed df)
  | NoRunningServices => emit DisplayedNoRunning
  end.

(** The events of a computation, whatever its outcome. *)
Definition replay {A : Type} (m : M A) : M unit := (trace m, Returned tt).

(** Modelled from the spec: the refresh loop of [MonitorApp]
    (edge_containers_cli.cmds.monitor), which is not among the sources.
    Section 4.3: [Idle -> Polling -> Rendering -> Idle (sleep) -> Polling],
    each poll a blocking call of the refresh source; a poll that fails with
    [NoRunningServicesError] is a transient, renderable state and polling
    continues; [EmptyClusterError] is terminal; on a successful poll the
    displayed table is replaced; any other exception of a poll ends the loop
    with it.  [future] lists the polls still to come before the user quits:
    for each the state of the cluster then and the [all] the application
    calls the refresh source with, which [K8sCommands.monitor] does not hand
    it. *)
Fixpoint refresh_loop (update : Cluster -> bool -> M DataFrame)
  (v : view) (future : list (Cluster * bool)) : M unit :=
  display v ;;
  match future with
  | [] => emit Stopped
  | poll :: future' =>
      emit Slept ;;
      replay (update (fst poll) (snd poll)) ;;
      match outcome (update (fst poll) (snd poll)),
            failure (update (fst poll) (snd poll)) with
      | Returned df, _ => refresh_loop update (Table df) future'
      | Raised _, Some NoRunningServicesError =>
          refresh_loop update NoRunningServices future'
      | Raised _, Some EmptyClusterError => emit Stopped
      | Raised e, None => raise e
      end
  end.

(** Modelled from the spec: [MonitorApp(iocs_df, update).run()], the refresh
    loop started on the first snapshot with [update] as its refresh source. *)
Definition MonitorApp_run (iocs_df : DataFrame)
  (update : Cluster -> bool -> M DataFrame) (future : list (Cluster * bool))
  : M unit :=
  refresh_loop update (Table iocs_df) future.

(** [K8sCommands.monitor(self, all)]: the first aggregation is made before
    the application exists, and the application is given the first frame and
    [self._get_services]. *)
Definition monitor (k : Cluster) (future : list (Cluster * bool)) (all : bool) : M unit :=
  iocs_df <- _get_services k all ;;
  MonitorApp_run iocs_df _get_services future.

(** The polls a computation slept for. *)
Definition polls_scheduled {A : Type} (m : M A) : nat :=
  List.length (List.filter (fun e => match e with Slept => true | _ => false end) (trace m)).

(* ===================================================================== *)
(** ** The frame [_get_services] returns, row by row *)
(* ===================================================================== *)

(** The typed reading of one row of the frame [_get_services] returns; an
    absent [version] or [deployed] is a null cell, and so is an empty [name]
    or [image]. *)
Module Service.

Record ServiceRecord : Type := mkServiceRecord {
  name : string;
  version : option string;
  running : bool;
  restarts : Z;
  deployed : option string;
  image : string
}.

Definition opt_str (s : option string) : Polars.value :=
  match s with
  | Some t => Str t
  | None => Null
  end.

(** The row of the frame that holds the record, in the column order of the
    final [select]. *)
Definition to_row (s : ServiceRecord) : Polars.row :=
  [csv_field (name s); opt_str (version s); Boolean (running s); Int (restarts s);
   opt_str (deployed s); csv_field (image s)].

End Service.

Abbreviation ServiceRecord := Service.ServiceRecord.

(** The column order of the final [select]. *)
Definition service_columns : list string :=
  ["name"; "version"; "running"; "restarts"; "deployed"; "image"].

(** The workload rows in the order the loop fetches them. *)
Definition workload_rows (k : Cluster) : list (string * string) :=
  workloads k deployment ++ workloads k statefulset.

Definition workload_names (k : Cluster) : list string :=
  map fst (workload_rows k).

(** Whether a row named [m] joins a workload row named [n]: the names are
    equal and not empty, a null key joining nothing. *)
Definition name_match (n m : string) : bool :=
  negb (String.eqb n "") && String.eqb n m.

(** The pod rows that join a workload named [n]. *)
Definition pods_of (P : list pod) (n : string) : list pod :=
  List.filter (fun p => name_match n (pod_name p)) P.

(** The release rows that join a workload named [n]. *)
Definition releases_of (R : list release) (n : string) : list release :=
  List.filter (fun h => name_match n (release_name h)) R.

(** What the pod join and the following [with_columns] leave in the columns
    [running] and [restarts] of the rows of a workload named [n]. *)
Definition pod_status (P : list pod) (n : string) : list (bool * Z) :=
  match pods_of P n with
  | [] => [(false, 0%Z)]
  | ms =>
      map (fun p =>
             (String.eqb (pod_running p) "Running",
              match pod_restarts p with Some z => z | None => 0%Z end))
          ms
  end.

(** What the release join leaves in the columns [version] and [deployed]. *)
Definition release_info (R : list release) (n : string)
  : list (option string * option string) :=
  match releases_of R n with
  | [] => [(None, None)]
  | ms => map (fun h => (Some (app_version h), Some (substring 0 19 (updated h)))) ms
  end.

(** The records of a workload row: one per matching pod row and matching
    release row, and one where there is no match. *)
Definition records_of (P : list pod) (R : list release) (ni : string * string)
  : list ServiceRecord :=
  flat_map
    (fun bz =>
       map (fun vd =>
              Service.mkServiceRecord (fst ni) (fst vd) (fst bz) (snd bz) (snd vd) (snd ni))
           (release_info R (fst ni)))
    (pod_status P (fst ni)).

(** All records before the final filter. *)
Definition joined (k : Cluster) : list ServiceRecord :=
  flat_map (records_of (pods k) (releases k)) (workload_rows k).

Definition service_frame (l : list ServiceRecord) : DataFrame :=
  Polars.mkDataFrame service_columns (map Service.to_row l).

(** The frame the workload loop builds from the rows [W] of both kinds. *)
Definition workload_frame (W : list (string * string)) : DataFrame :=
  match W with
  | [] => Polars.empty
  | _ :: _ => read_csv_deploy_info W
  end.

(** The frame after the pod-status step of [_get_services]. *)
Definition status_frame (W : list (string * string)) (P : list pod) : DataFrame :=
  Polars.mkDataFrame ["name"; "image"; "running"; "restarts"]
    (flat_map
       (fun ni =>
          map (fun bz =>
                 [csv_field (fst ni); csv_field (snd ni); Boolean (fst bz); Int (snd bz)])
              (pod_status P (fst ni)))
       W).

(** The frame of the releases after the renaming of its columns. *)
Definition helm_frame (R : list release) : DataFrame :=
  Polars.mkDataFrame ["name"; "version"; "deployed"]
    (map (fun h => [Str (release_name h); Str (app_version h); Str (updated h)]) R).

(** The commands of a complete aggregation, in order. *)
Definition all_commands : list event :=
  [Ran (kubectl_get deployment); Ran (kubectl_get statefulset);
   Ran kubectl_get_pods; Ran helm_list].

(** The records a complete aggregation returns: with [all] unset only the
    running ones. *)
Definition result_records (k : Cluster) (all : bool) : list ServiceRecord :=
  if all then joined k else List.filter Service.running (joined k).

Definition result_frame (k : Cluster) (all : bool) : DataFrame :=
  service_frame (result_records k all).

(** The rows of a frame whose [running] cell is true. *)
Definition running_rows (df : DataFrame) : list Polars.row :=
  List.filter
    (fun r => Polars.value_eqb (Polars.get (Polars.columns df) "running" r) (Boolean true))
    (Polars.rows df).


(** The cell of row [r] of frame [df] under column [c]. *)
Definition cell (df : DataFrame) (c : string) (r : Polars.row) : Polars.value :=
  Polars.get (Polars.columns df) c r.



(* ===================================================================== *)
(** ** Clusters to run the commands on *)
(* ===================================================================== *)

Definition one_deployment (n i : string) (r : resource) : list (string * string) :=
  match r with
  | deployment => [(n, i)]
  | statefulset => []
  end.

Definition release_A : release :=
  mkRelease "svcA" "1.2" "2024-01-01 10:00:00.123456789 +0000 UTC".

(** Scenario A of the specification. *)
Definition scenario_A : Cluster :=
  mkCluster
    (fun r => match r with
              | deployment => [("svcA", "imgX")]
              | statefulset => [("svcB", "imgY")]
              end)
    [mkPod "svcA" "Running" (Some 2%Z)]
    [release_A].

(** Nothing deployed, though a pod and a release are still listed. *)
Definition empty_cluster : Cluster :=
  mkCluster (fun _ => []) [mkPod "svcA" "Running" (Some 2%Z)] [release_A].

(** Two workloads and no pod row at all. *)
Definition no_pods_cluster : Cluster :=
  mkCluster (workloads scenario_A) [] [release_A].

(** One workload whose only pod is not running. *)
Definition pending_cluster : Cluster :=
  mkCluster (one_deployment "svcA" "imgX") [mkPod "svcA" "Pending" None] [release_A].

(** One name that is both a deployment and a statefulset. *)
Definition both_kinds_cluster : Cluster :=
  mkCluster
    (fun r => match r with
              | deployment => [("svcA", "imgX")]
              | statefulset => [("svcA", "imgY")]
              end)
    [mkPod "svcA" "Running" (Some 2%Z)]
    [release_A].


(** One workload with two pod rows. *)
Definition two_pods_cluster : Cluster :=
  mkCluster (one_deployment "svcA" "imgX")
    [mkPod "svcA" "Running" (Some 2%Z); mkPod "svcA" "Pending" None]
    [release_A].

(** One workload with two release rows, and no pod row. *)
Definition two_releases_cluster : Cluster :=
  mkCluster (one_deployment "svcA" "imgX") []
    [release_A; mkRelease "svcA" "1.3" "2024-02-02 11:00:00.5 +0000 UTC"].


(** One workload with a running pod, and no release. *)
Definition no_release_cluster : Cluster :=
  mkCluster (one_deployment "svcA" "imgX") [mkPod "svcA" "Running" (Some 2%Z)] [].

(** A workload and a running pod that both lack a name. *)
Definition unnamed_cluster : Cluster :=
  mkCluster (one_deployment "" "imgX") [mkPod "" "Running" (Some 2%Z)] [release_A].

(** How often a value occurs in a column. *)
Definition occurrences (v : Polars.value) (l : list Polars.value) : nat :=
  List.length (List.filter (Polars.value_eqb v) l).


(** One workload, and a pod row and a release row of a name that has none. *)
Definition stray_cluster : Cluster :=
  mkCluster (one_deployment "svcA" "imgX")
    [mkPod "ghost" "Running" (Some 7%Z); mkPod "svcA" "Running" (Some 2%Z)]
    [mkRelease "ghost" "9.9" "2023-03-03 12:00:00.5 +0000 UTC"; release_A].

(** The row of [svcA] in scenario A, and its row while its pod is pending. *)
Definition svcA_running_row : Polars.row :=
  [Str "svcA"; Str "1.2"; Boolean true; Int 2; Str "2024-01-01 10:00:00"; Str "imgX"].

Definition svcA_pending_row : Polars.row :=
  [Str "svcA"; Str "1.2"; Boolean false; Int 0; Str "2024-01-01 10:00:00"; Str "imgX"].

(* ===================================================================== *)
(** ** The one-shot commands of K8sCommands *)
(* ===================================================================== *)

(** Python strings, read as ASCII. *)
Module Py.

(** [c.isspace()] for an ASCII character: tab, line feed, vertical tab, form
    feed, carriage return, the four separators 28 to 31 and the space. *)
Definition isspace (c : Ascii.ascii) : bool :=
  let n := Ascii.nat_of_ascii c in
  ((9 <=? n) && (n <=? 13) || (28 <=? n) && (n <=? 32))%nat.

(** [s.lstrip()] *)
Fixpoint lstrip (s : string) : string :=
  match s with
  | String c s' => if isspace c then lstrip s' else s
  | EmptyString => EmptyString
  end.

(** [s.rstrip()] *)
Fixpoint rstrip (s : string) : string :=
  match s with
  | String c s' =>
      match rstrip s' with
      | EmptyString => if isspace c then EmptyString else String c EmptyString
      | r => String c r
      end
  | EmptyString => EmptyString
  end.

(** [s.strip()] *)
Definition strip (s : string) : string := rstrip (lstrip s).

(** [needle in hay] *)
Fixpoint contains (needle hay : string) : bool :=
  match hay with
  | EmptyString => String.prefix needle EmptyString
  | String _ hay' => String.prefix needle hay || contains needle hay'
  end.

(** Python's truth value of a string. *)
Definition truthy (s : string) : bool :=
  match s with
  | EmptyString => false
  | String _ _ => true
  end.

(** [template.format(key=value)], read left to right; [field] is the text of
    the replacement field being read, if one is open.  [{{] and [}}] stand for
    a brace, [{key}] for the value.  [None] where [str.format] raises (a lone
    brace, a field of another name) and where the field has a conversion, a
    format spec, an attribute or an index, which are not followed here. *)
Fixpoint format_from (key value : string) (field : option string) (template : string)
  : option string :=
  match template with
  | EmptyString =>
      match field with
      | None => Some EmptyString
      | Some _ => None
      end
  | String c rest =>
      match field with
      | None =>
          if Ascii.eqb c "{"%char then
            match rest with
            | String c1 rest1 =>
                if Ascii.eqb c1 "{"%char
                then option_map (String "{"%char) (format_from key value None rest1)
                else format_from key value (Some EmptyString) rest
            | EmptyString => None
            end
          else if Ascii.eqb c "}"%char then
            match rest with
            | String c1 rest1 =>
                if Ascii.eqb c1 "}"%char
                then option_map (String "}"%char) (format_from key value None rest1)
                else None
            | EmptyString => None
            end
          else option_map (String c) (format_from key value None rest)
      | Some name =>
          if Ascii.eqb c "}"%char then
            if String.eqb name key
            then option_map (String.append value) (format_from key value None rest)
            else None
          else format_from key value (Some (String.append name (String c EmptyString))) rest
      end
  end.

Definition format (template key value : string) : option string :=
  format_from key value None template.

(** The first and the last character of a string. *)
Definition first_char (s : string) : option Ascii.ascii :=
  match s with
  | String c _ => Some c
  | EmptyString => None
  end.

Fixpoint last_char (s : string) : option Ascii.ascii :=
  match s with
  | String c EmptyString => Some c
  | String _ s' => last_char s'
  | EmptyString => None
  end.

(** No brace in the string. *)
Fixpoint brace_free (s : string) : bool :=
  match s with
  | EmptyString => true
  | String c s' =>
      negb (Ascii.eqb c "{"%char) && negb (Ascii.eqb c "}"%char) && brace_free s'
  end.

End Py.

Declare Scope shell_scope.

Module Shell.

(** The exceptions the one-shot commands end with: [typer.Exit(code)],
    [typer.Abort()], the [AttributeError] of an attribute that was never
    assigned, and what [str.format] raises. *)
Inductive exception : Type :=
| Exit (code : Z)
| Abort
| AttributeError (attribute : string)
| FormatError.

(** What a command does, in order: [shell.run_command(cmd, interactive=...,
    error_OK=...)] with the keyword arguments as they are passed ([None] for
    one left to its default), [log.error], [log.info], [typer.confirm] and
    [webbrowser.open].  [log.debug] is left out. *)
Inductive action : Type :=
| Ran (cmd : string) (interactive error_OK : option bool)
| LogError (msg : string)
| LogInfo (msg : string)
| Asked (text : string)
| Opened (url : string).

(** What surrounds a command: the text [shell.run_command] returns for each
    command line, the user's answer to each [typer.confirm] and the setting
    [globals.EC_LOG_URL]. *)
Record World : Type := mkWorld {
  output : string -> string;
  answer : string -> bool;
  EC_LOG_URL : option string
}.

Inductive ended (A : Type) : Type :=
| Done (a : A)
| Raised (e : exception).

Arguments Done {A} a.
Arguments Raised {A} e.

Definition Sh (A : Type) : Type := list action * ended A.

Definition ret {A : Type} (a : A) : Sh A := ([], Done a).

Definition bind {A B : Type} (m : Sh A) (f : A -> Sh B) : Sh B :=
  match m with
  | (tr, Done a) => let (tr', r) := f a in (tr ++ tr', r)
  | (tr, Raised e) => (tr, Raised e)
  end.

Definition raise {A : Type} (e : exception) : Sh A := ([], Raised e).

Definition act (a : action) : Sh unit := ([a], Done tt).

Notation "x <- m ;; k" := (bind m (fun x => k))
  (at level 61, m at next level, right associativity) : shell_scope.
Notation "m ;; k" := (bind m (fun _ => k))
  (at level 61, right associativity) : shell_scope.

Local Open Scope shell_scope.
Local Open Scope string_scope.

Definition actions {A : Type} (m : Sh A) : list action := fst m.
Definition ending {A : Type} (m : Sh A) : ended A := snd m.

(** [shell.run_command(cmd, interactive=..., error_OK=...)] *)
Definition run_command (w : World) (cmd : string) (interactive error_OK : option bool)
  : Sh string :=
  act (Ran cmd interactive error_OK) ;; ret (output w cmd).

(** [typer.confirm(text)] *)
Definition confirm (w : World) (text : string) : Sh bool :=
  act (Asked text) ;; ret (answer w text).

(** [template.format(key=value)] *)
Definition format (template key value : string) : Sh string :=
  match Py.format template key value with
  | Some s => ret s
  | None => raise FormatError
  end.

(** The command template of [check_service], as its f-string leaves it. *)
Definition check_service_cmd (service_name namespace : string) : string :=
  "kubectl get {t} -o name -n " ++ namespace ++ " " ++ service_name
  ++ " --ignore-not-found".

(** The loop [for t in ...: ... break / else: ...] of [check_service]: the
    result it leaves the loop with. *)
Fixpoint check_service_for (w : World) (service_name namespace : string)
  (ts : list string) : Sh string :=
  match ts with
  | [] =>
      act (LogError (service_name ++ " does not exist in domain " ++ namespace)) ;;
      raise (Exit 1)
  | t :: ts' =>
      cmd <- format (check_service_cmd service_name namespace) "t" t ;;
      result <- run_command w cmd (Some false) (Some true) ;;
      if Py.truthy result then ret result
      else check_service_for w service_name namespace ts'
  end.

(** [check_service(service_name, namespace)] *)
Definition check_service (w : World) (service_name namespace : string) : Sh string :=
  result <- check_service_for w service_name namespace ["statefulset"; "deployment"] ;;
  ret (Py.strip result).

(** [check_namespace(namespace)] *)
Definition check_namespace (w : World) (namespace : option string) : Sh unit :=
  match namespace with
  | None | Some EmptyString =>
      act (LogError "Please set EC_K8S_NAMESPACE or pass --namespace") ;;
      raise (Exit 1)
  | Some ns =>
      result <- run_command w ("kubectl get namespace " ++ ns ++ " -o name")
                  (Some false) (Some true) ;;
      if Py.contains "NotFound" result then
        act (LogError ("namespace " ++ ns ++ " not found - please check "
                       ++ "~/.kube/config or change EC_K8S_NAMESPACE")) ;;
        raise (Exit 1)
      else act (LogInfo ("domain = " ++ ns))
  end.

(** [globals.Context], with the fields [K8sCommands] reads. *)
Record Context : Type := mkContext {
  ctx_namespace : string;
  ctx_beamline_repo : string
}.

(** An instance of [K8sCommands]; [fullname] is [None] while the attribute
    has not been assigned. *)
Record K8sCommands : Type := mkK8sCommands {
  namespace : string;
  beamline_repo : string;
  fullname : option string;
  service_name : string
}.

(** [K8sCommands.__init__(self, ctx, service_name, check)] *)
Definition __init__ (w : World) (ctx : option Context) (service_name : string)
  (check : bool) : Sh K8sCommands :=
  match ctx with
  | Some c =>
      let namespace := ctx_namespace c in
      check_namespace w (Some namespace) ;;
      fullname <-
        (if negb (String.eqb service_name "") && check
         then f <- check_service w service_name namespace ;; ret (Some f)
         else ret None) ;;
      ret (mkK8sCommands namespace (ctx_beamline_repo c) fullname service_name)
  | None => ret (mkK8sCommands "" "" None service_name)
  end.

(** Reading [self.fullname]. *)
Definition self_fullname (self : K8sCommands) : Sh string :=
  match fullname self with
  | Some f => ret f
  | None => raise (AttributeError "fullname")
  end.

(** [K8sCommands.attach(self)] *)
Definition attach (w : World) (self : K8sCommands) : Sh unit :=
  f <- self_fullname self ;;
  run_command w ("kubectl -it -n " ++ namespace self ++ " attach " ++ f) (Some true) None ;;
  ret tt.

(** [K8sCommands.delete(self)] *)
Definition delete (w : World) (self : K8sCommands) : Sh unit :=
  yes <- confirm w ("This will remove all versions of " ++ service_name self ++ " "
                    ++ "from the cluster. Are you sure ?") ;;
  if negb yes then raise Abort
  else
    run_command w ("helm delete -n " ++ namespace self ++ " " ++ service_name self)
      None None ;;
    ret tt.

(** [K8sCommands.exec(self)] *)
Definition exec (w : World) (self : K8sCommands) : Sh unit :=
  f <- self_fullname self ;;
  run_command w ("kubectl -it -n " ++ namespace self ++ " exec " ++ f ++ " -- bash")
    None None ;;
  ret tt.

(** [K8sCommands.log_history(self)] *)
Definition log_history (w : World) (self : K8sCommands) : Sh unit :=
  match EC_LOG_URL w with
  | None | Some EmptyString =>
      act (LogError "EC_LOG_URL environment not set") ;;
      raise (Exit 1)
  | Some template =>
      url <- format template "service_name" (service_name self) ;;
      act (Opened url)
  end.

(** [K8sCommands.logs(self, prev, follow)] *)
Definition logs (w : World) (self : K8sCommands) (prev follow : bool) : Sh unit :=
  let previous := if prev then "-p" else "" in
  let fol := if follow then "-f" else "" in
  f <- self_fullname self ;;
  run_command w ("kubectl -n " ++ namespace self ++ " logs " ++ f ++ " " ++ previous
                 ++ " " ++ fol) None None ;;
  ret tt.

(** [K8sCommands.restart(self)] *)
Definition restart (w : World) (self : K8sCommands) : Sh unit :=
  pod_name <- run_command w ("kubectl get -n " ++ namespace self ++ " pod -l app="
                             ++ service_name self ++ " -o name") (Some false) None ;;
  run_command w ("kubectl delete -n " ++ namespace self ++ " " ++ pod_name) None None ;;
  ret tt.

(** [K8sCommands.start(self)] *)
Definition start (w : World) (self : K8sCommands) : Sh unit :=
  f <- self_fullname self ;;
  run_command w ("kubectl scale -n " ++ namespace self ++ " " ++ f ++ " --replicas=1")
    None None ;;
  ret tt.

(** [K8sCommands.stop(self)] *)
Definition stop (w : World) (self : K8sCommands) : Sh unit :=
  f <- self_fullname self ;;
  run_command w ("kubectl scale -n " ++ namespace self ++ " " ++ f ++ " --replicas=0 ")
    None None ;;
  ret tt.

(** The command lines a computation ran, in order. *)
Definition commands {A : Type} (m : Sh A) : list string :=
  flat_map (fun a => match a with Ran cmd _ _ => [cmd] | _ => [] end) (actions m).

End Shell.

(** The query [check_service] makes for the workload kind [t]. *)
Definition service_query (t service_name namespace : string) : string :=
  ("kubectl get " ++ t ++ " -o name -n " ++ namespace ++ " " ++ service_name
   ++ " --ignore-not-found")%string.

(** A cluster that has the namespace [p45] and in it the statefulset
    [bl45p-ea-ioc-01], and a user who confirms. *)
Definition p45_world : Shell.World :=
  Shell.mkWorld
    (fun cmd =>
       if String.eqb cmd (service_query "statefulset" "bl45p-ea-ioc-01" "p45")
       then String.append "statefulset.apps/bl45p-ea-ioc-01" (String "010"%char EmptyString)
       else if String.eqb cmd "kubectl get namespace p45 -o name"
            then String.append "namespace/p45" (String "010"%char EmptyString)
            else if String.eqb cmd "kubectl get namespace p46 -o name"
                 then "Error from server (NotFound): namespaces p46 not found"
                 else EmptyString)
    (fun _ => true)
    None.

(* ===================================================================== *)
(** ** Lists *)
(* ===================================================================== *)

Section ListFacts.

Context {A B C : Type}.

Lemma flat_map_map (f : A -> B) (h : B -> list C) (l : list A) :
  flat_map h (map f l) = flat_map (fun x => h (f x)) l.
Proof.
  induction l as [|x l IH]; simpl; [reflexivity|].
  now rewrite IH.
Qed.

Lemma map_flat_map (f : A -> list B) (h : B -> C) (l : list A) :
  map h (flat_map f l) = flat_map (fun x => map h (f x)) l.
Proof.
  induction l as [|x l IH]; simpl; [reflexivity|].
  now rewrite map_app, IH.
Qed.

Lemma flat_map_flat_map (f : A -> list B) (h : B -> list C) (l : list A) :
  flat_map h (flat_map f l) = flat_map (fun x => flat_map h (f x)) l.
Proof.
  induction l as [|x l IH]; simpl; [reflexivity|].
  now rewrite flat_map_app, IH.
Qed.

Lemma filter_map_comm (f : A -> B) (p : B -> bool) (l : list A) :
  List.filter p (map f l) = map f (List.filter (fun x => p (f x)) l).
Proof.
  induction l as [|x l IH]; simpl; [reflexivity|].
  destruct (p (f x)); simpl; now rewrite IH.
Qed.

Lemma flat_map_singleton (f : A -> B) (l : list A) :
  flat_map (fun x => [f x]) l = map f l.
Proof.
  induction l as [|x l IH]; simpl; [reflexivity|].
  now rewrite IH.
Qed.

End ListFacts.

(* ===================================================================== *)
(** ** The workload loop *)
(* ===================================================================== *)


Lemma concat_empty_deploy_info W :
  Polars.concat_diagonal Polars.empty (read_csv_deploy_info W) = read_csv_deploy_info W.
Proof.
  unfold Polars.concat_diagonal, read_csv_deploy_info. cbn.
  f_equal. rewrite map_map. apply map_ext. intros [n i]. reflexivity.
Qed.

Lemma concat_deploy_info W1 W2 :
  Polars.concat_diagonal (read_csv_deploy_info W1) (read_csv_deploy_info W2)
  = read_csv_deploy_info (W1 ++ W2).
Proof.
  unfold Polars.concat_diagonal, read_csv_deploy_info. cbn.
  f_equal. rewrite map_app, !map_map. f_equal; apply map_ext; intros [n i]; reflexivity.
Qed.

Lemma get_workloads_eq k :
  get_workloads k [deployment; statefulset] Polars.empty =
  ([Ran (kubectl_get deployment); Ran (kubectl_get statefulset)],
   Returned (workload_frame (workload_rows k))).
Proof.
  unfold workload_rows. cbn.
  destruct (workloads k deployment) as [|d D];
    destruct (workloads k statefulset) as [|s S]; cbn -[Polars.concat_diagonal read_csv_deploy_info].
  - reflexivity.
  - now rewrite concat_empty_deploy_info.
  - now rewrite concat_empty_deploy_info, app_nil_r.
  - now rewrite concat_empty_deploy_info, concat_deploy_info.
Qed.

(* ===================================================================== *)
(** ** The joins *)
(* ===================================================================== *)


Lemma key_match_csv n m :
  Polars.key_match (csv_field n) (csv_field m) = name_match n m.
Proof. destruct n, m; reflexivity. Qed.

Lemma key_match_csv_str n m :
  Polars.key_match (csv_field n) (Str m) = name_match n m.
Proof. destruct n, m; reflexivity. Qed.

Lemma csv_field_running r :
  Polars.value_eqb (csv_field r) (Str "Running") = String.eqb r "Running".
Proof. destruct r; reflexivity. Qed.

Lemma pod_join_eq W P :
  Polars.with_columns (Polars.join_left (read_csv_deploy_info W) (read_csv_pod_info P) "name")
                [("running",
                  Polars.replace (Polars.col "running")
                    (Str "Running") (Boolean true) (Boolean false));
                 ("restarts", Polars.fill_null (Polars.col "restarts") (Int 0))]
  = status_frame W P.
Proof.
  unfold Polars.with_columns, Polars.join_left, status_frame, read_csv_deploy_info, read_csv_pod_info.
  cbn [Polars.columns Polars.rows]. f_equal.
  rewrite flat_map_map, map_flat_map. apply flat_map_ext. intros [n i].
  cbn [fst snd]. unfold pod_status, pods_of.
  rewrite filter_map_comm.
  rewrite (filter_ext _ (fun p => name_match n (pod_name p)))
    by (intros p; apply key_match_csv).
  destruct (List.filter _ P) as [|p ms].
  - reflexivity.
  - cbn [map]. apply f_equal2; [|rewrite !map_map; apply map_ext; intros q];
      cbn -[csv_field];
      match goal with |- context [pod_restarts ?x] =>
        destruct (pod_restarts x); cbv [Polars.replace Polars.col Polars.fill_null];
        cbn -[csv_field]; rewrite csv_field_running;
        destruct (String.eqb (pod_running x) "Running")
      end;
      reflexivity.
Qed.

Lemma lit_eq W :
  Polars.with_columns (read_csv_deploy_info W)
                [("running", Polars.lit (Boolean false));
                 ("restarts", Polars.lit (Int 0))]
  = status_frame W [].
Proof.
  unfold Polars.with_columns, status_frame, read_csv_deploy_info.
  cbn [Polars.columns Polars.rows]. f_equal.
  rewrite map_map. cbn -[csv_field]. now rewrite flat_map_singleton.
Qed.

(** The renaming of the release columns raises exactly for an empty
    listing. *)
Lemma rename_helm R :
  Polars.rename (read_json_helm R) [("app_version", "version"); ("updated", "deployed")]
  = match R with
    | [] => None
    | _ :: _ => Some (helm_frame R)
    end.
Proof. now destruct R. Qed.

Lemma release_join_eq W P R :
  Polars.select
    (Polars.join_left (status_frame W P)
       (Polars.with_columns (helm_frame R)
          [("deployed", Polars.str_slice (Polars.col "deployed") 0 19)])
       "name")
    ["name"; "version"; "running"; "restarts"; "deployed"; "image"]
  = service_frame (flat_map (records_of P R) W).
Proof.
  unfold Polars.select, Polars.join_left, Polars.with_columns, helm_frame,
    status_frame, service_frame, service_columns.
  cbn [Polars.columns Polars.rows]. f_equal.
  rewrite flat_map_flat_map, !map_flat_map. apply flat_map_ext. intros [n i].
  cbn [fst snd]. unfold records_of. cbn [fst snd].
  rewrite flat_map_map, !map_flat_map. apply flat_map_ext. intros [b z].
  cbn [fst snd]. unfold release_info, releases_of.
  rewrite map_map, filter_map_comm.
  rewrite (filter_ext _ (fun h => name_match n (release_name h)))
    by (intros h; apply key_match_csv_str).
  destruct (List.filter _ R) as [|h ms].
  - reflexivity.
  - cbn [map]. apply f_equal2; [|rewrite !map_map; apply map_ext; intros q]; reflexivity.
Qed.

Lemma filter_service_frame l :
  Polars.filter (service_frame l) (Polars.eq (Polars.col "running") (Boolean true))
  = service_frame (List.filter Service.running l).
Proof.
  unfold Polars.filter, service_frame. cbn [Polars.columns Polars.rows]. f_equal.
  rewrite filter_map_comm. f_equal. apply filter_ext. intros s.
  cbv [Polars.eq Polars.col]. cbn. now destruct (Service.running s).
Qed.


(** [_get_services] case by case. *)
Lemma _get_services_eq k all :
  _get_services k all =
  match workload_rows k, pods k, all with
  | [], _, _ =>
      ([Ran (kubectl_get deployment); Ran (kubectl_get statefulset);
        Printed "No deployed services found"],
       Raised (typer_Exit 0))
  | _ :: _, [], false =>
      ([Ran (kubectl_get deployment); Ran (kubectl_get statefulset);
        Ran kubectl_get_pods; Printed "No running services found"],
       Raised (typer_Exit 0))
  | _ :: _, _, _ =>
      match releases k with
      | [] => (all_commands, Raised polars_exception)
      | _ :: _ => (all_commands, Returned (result_frame k all))
      end
  end.
Proof.
  unfold _get_services, result_frame, result_records, joined. rewrite get_workloads_eq.
  destruct (workload_rows k) as [|w W]; [reflexivity|].
  set (WW := w :: W).
  unfold bind at 1. cbn [workload_frame Polars.is_empty WW read_csv_deploy_info Polars.rows map].
  unfold run_kubectl_get_pods, run_helm_list, print, raise, emit, ret, all_commands, polars.
  destruct (pods k) as [|p P]; destruct all;
    cbn [bind truthy negb app]; try reflexivity;
    rewrite ?lit_eq, ?pod_join_eq, rename_helm;
    (destruct (releases k) as [|h R] eqn:ER; [reflexivity|]);
    rewrite <- ER; unfold raise, ret; cbn [bind app negb];
    rewrite ?release_join_eq, ?filter_service_frame; reflexivity.
Qed.

(* ===================================================================== *)
(** ** The records *)
(* ===================================================================== *)

Lemma column_name l :
  Polars.column (service_frame l) "name" = map (fun s => csv_field (Service.name s)) l.
Proof. unfold Polars.column, service_frame. cbn -[csv_field]. now rewrite map_map. Qed.




Lemma in_records_of P R ni s :
  In s (records_of P R ni) <->
  exists bz vd,
    In bz (pod_status P (fst ni)) /\ In vd (release_info R (fst ni)) /\
    s = Service.mkServiceRecord (fst ni) (fst vd) (fst bz) (snd bz) (snd vd) (snd ni).
Proof.
  unfold records_of. rewrite in_flat_map. split.
  - intros (bz & Hbz & Hs). apply in_map_iff in Hs as (vd & Hs & Hvd).
    exists bz, vd. auto.
  - intros (bz & vd & Hbz & Hvd & ->). exists bz. split; [assumption|].
    apply in_map_iff. exists vd. auto.
Qed.

Lemma pod_status_nonempty P n : pod_status P n <> [].
Proof. unfold pod_status. destruct (pods_of P n); discriminate. Qed.

Lemma release_info_nonempty R n : release_info R n <> [].
Proof. unfold release_info. destruct (releases_of R n); discriminate. Qed.


(** A [running] record has a pod row of its name in state [Running]. *)
Lemma pod_status_running P n bz :
  In bz (pod_status P n) -> fst bz = true ->
  exists p, In p P /\ pod_name p = n /\ pod_running p = "Running".
Proof.
  unfold pod_status, pods_of. intros Hin Hb.
  destruct (List.filter _ P) as [|q ms] eqn:E.
  - destruct Hin as [<-|[]]. discriminate.
  - rewrite <- E in Hin. apply in_map_iff in Hin as (p & <- & Hp).
    apply filter_In in Hp as (Hp & (_ & Hn)%andb_prop). exists p. cbn in Hb.
    apply String.eqb_eq in Hn, Hb. auto.
Qed.

Lemma in_joined k s :
  In s (joined k) <->
  exists ni, In ni (workload_rows k) /\ In s (records_of (pods k) (releases k) ni).
Proof. unfold joined. apply in_flat_map. Qed.

Lemma joined_name k s : In s (joined k) -> In (Service.name s) (workload_names k).
Proof.
  intros (ni & Hni & Hs)%in_joined.
  apply in_records_of in Hs as (bz & vd & _ & _ & ->).
  cbn. unfold workload_names. now apply in_map.
Qed.

Lemma joined_covers k ni :
  In ni (workload_rows k) ->
  exists s, In s (joined k) /\ Service.name s = fst ni /\ Service.image s = snd ni.
Proof.
  intros Hni.
  destruct (pod_status (pods k) (fst ni)) as [|bz l] eqn:Eb;
    [now apply pod_status_nonempty in Eb|].
  destruct (release_info (releases k) (fst ni)) as [|vd l'] eqn:Ev;
    [now apply release_info_nonempty in Ev|].
  exists (Service.mkServiceRecord (fst ni) (fst vd) (fst bz) (snd bz) (snd vd) (snd ni)).
  split; [|split; reflexivity].
  - apply in_joined. exists ni. split; [assumption|].
    apply in_records_of. exists bz, vd. rewrite Eb, Ev. cbn. auto.
Qed.


Lemma joined_running k s :
  In s (joined k) -> Service.running s = true ->
  exists p, In p (pods k) /\ pod_name p = Service.name s /\ pod_running p = "Running".
Proof.
  intros (ni & _ & Hs)%in_joined Hr.
  apply in_records_of in Hs as (bz & vd & Hbz & _ & ->). cbn in *.
  eapply pod_status_running; eauto.
Qed.

Lemma filter_none {A : Type} (p : A -> bool) (l : list A) :
  (forall y, In y l -> p y = false) -> List.filter p l = [].
Proof.
  induction l as [|x l IH]; cbn; [reflexivity|].
  intros H. rewrite (H x) by auto. auto.
Qed.

(** Among rows with distinct keys at most one has a given key. *)
Lemma filter_NoDup_key {A : Type} (key : A -> string) (l : list A) (n : string) :
  NoDup (map key l) ->
  (List.length (List.filter (fun x => name_match n (key x)) l) <= 1)%nat.
Proof.
  induction l as [|x l IH]; cbn; [lia|].
  intros Hnd. inversion Hnd as [|? ? Hx Hl]; subst.
  destruct (name_match n (key x)) eqn:E; [|auto].
  apply andb_prop in E as (_ & ->%String.eqb_eq).
  cbn. rewrite filter_none; [cbn; lia|].
  intros y Hy. destruct (name_match (key x) (key y)) eqn:Ey; [|reflexivity].
  apply andb_prop in Ey as (_ & Hk%String.eqb_eq).
  contradiction Hx. rewrite Hk. now apply in_map.
Qed.

(* ===================================================================== *)
(** ** The ways [_get_services] ends *)
(* ===================================================================== *)

(** The four ways [_get_services] ends. *)
Lemma get_services_cases k all :
  (workload_rows k = [] /\
   _get_services k all =
     ([Ran (kubectl_get deployment); Ran (kubectl_get statefulset);
       Printed "No deployed services found"],
      Raised (typer_Exit 0)))
  \/ (workload_rows k <> [] /\ pods k = [] /\ all = false /\
      _get_services k all =
        ([Ran (kubectl_get deployment); Ran (kubectl_get statefulset);
          Ran kubectl_get_pods; Printed "No running services found"],
         Raised (typer_Exit 0)))
  \/ (workload_rows k <> [] /\ (pods k <> [] \/ all = true) /\ releases k = [] /\
      _get_services k all = (all_commands, Raised polars_exception))
  \/ (workload_rows k <> [] /\ (pods k <> [] \/ all = true) /\ releases k <> [] /\
      _get_services k all = (all_commands, Returned (result_frame k all))).
Proof.
  rewrite _get_services_eq.
  destruct (workload_rows k) as [|w W]; [left; auto|].
  assert (HW : w :: W <> []) by discriminate.
  destruct (pods k) as [|p P]; destruct all;
    try (right; left; now auto);
    (destruct (releases k) as [|h R];
     [right; right; left|right; right; right]);
    (split; [exact HW|]); (split; [(now right) || (left; discriminate)|]);
    (split; [reflexivity || discriminate|reflexivity]).
Qed.

Lemma get_services_returned k all df :
  outcome (_get_services k all) = Returned df ->
  workload_rows k <> [] /\ (pods k <> [] \/ all = true) /\
  _get_services k all = (all_commands, Returned df) /\ df = result_frame k all.
Proof.
  destruct (get_services_cases k all)
    as [(_ & E)|[(_ & _ & _ & E)|[(_ & _ & _ & E)|(HW & HP & _ & E)]]];
    rewrite E; cbn; intros H; try discriminate.
  injection H as <-. auto.
Qed.

(** A frame is returned only when helm lists some release. *)
Lemma get_services_returned_releases k all df :
  outcome (_get_services k all) = Returned df -> releases k <> [].
Proof.
  destruct (get_services_cases k all)
    as [(_ & E)|[(_ & _ & _ & E)|[(_ & _ & _ & E)|(_ & _ & HR & E)]]];
    rewrite E; cbn; intros H; try discriminate.
  exact HR.
Qed.

(** With workloads, pod rows or [all], and releases, a frame is returned. *)
Lemma get_services_returns k all :
  workload_rows k <> [] -> pods k <> [] \/ all = true -> releases k <> [] ->
  _get_services k all = (all_commands, Returned (result_frame k all)).
Proof.
  intros HW HP HR.
  destruct (get_services_cases k all)
    as [(H & _)|[(_ & H & Ha & _)|[(_ & _ & H & _)|(_ & _ & _ & E)]]];
    try contradiction; [|exact E].
  destruct HP as [HP|HP]; [contradiction|congruence].
Qed.


(** Workloads and no pod row: the aggregation of the running services
    prints its message and exits after the pod query. *)
Lemma no_pod_rows_fails k :
  workload_rows k <> [] -> pods k = [] ->
  _get_services k false =
    ([Ran (kubectl_get deployment); Ran (kubectl_get statefulset);
      Ran kubectl_get_pods; Printed "No running services found"],
     Raised (typer_Exit 0))
  /\ failure (_get_services k false) = Some NoRunningServicesError.
Proof.
  intros HW HP.
  destruct (get_services_cases k false)
    as [(H & _)|[(_ & _ & _ & E)|[(_ & [H|H] & _)|(_ & [H|H] & _)]]];
    try contradiction; try discriminate.
  rewrite E. split; reflexivity.
Qed.


(* ===================================================================== *)
(** ** One record per workload row *)
(* ===================================================================== *)

Lemma pod_status_single P n :
  NoDup (map pod_name P) -> exists bz, pod_status P n = [bz].
Proof.
  intros H. apply (filter_NoDup_key pod_name P n) in H.
  unfold pod_status, pods_of.
  destruct (List.filter _ P) as [|p [|q ms]]; cbn in *; eauto; lia.
Qed.

Lemma release_info_single R n :
  NoDup (map release_name R) -> exists vd, release_info R n = [vd].
Proof.
  intros H. apply (filter_NoDup_key release_name R n) in H.
  unfold release_info, releases_of.
  destruct (List.filter _ R) as [|p [|q ms]]; cbn in *; eauto; lia.
Qed.

Lemma records_of_single P R ni :
  NoDup (map pod_name P) -> NoDup (map release_name R) ->
  exists s, records_of P R ni = [s]
            /\ Service.name s = fst ni /\ Service.image s = snd ni.
Proof.
  intros HP HR.
  destruct (pod_status_single P (fst ni) HP) as (bz & Eb).
  destruct (release_info_single R (fst ni) HR) as (vd & Ev).
  unfold records_of. rewrite Eb, Ev. cbn. eauto.
Qed.

Lemma joined_one_per_row k :
  NoDup (map pod_name (pods k)) -> NoDup (map release_name (releases k)) ->
  map (fun s => (Service.name s, Service.image s)) (joined k) = workload_rows k.
Proof.
  intros HP HR. unfold joined.
  induction (workload_rows k) as [|ni W IH]; [reflexivity|].
  cbn [flat_map]. rewrite map_app, IH.
  destruct (records_of_single (pods k) (releases k) ni HP HR) as (s & -> & Hn & Hi).
  cbn. rewrite Hn, Hi. now destruct ni.
Qed.

Lemma NoDup_map_Str (l : list string) : NoDup l -> NoDup (map Str l).
Proof.
  induction 1 as [|x l Hx Hl IH]; cbn; constructor; [|assumption].
  intros (y & [= ->] & Hy)%in_map_iff. contradiction.
Qed.

Lemma NoDup_map_filter {A B : Type} (f : A -> B) (p : A -> bool) (l : list A) :
  NoDup (map f l) -> NoDup (map f (List.filter p l)).
Proof.
  induction l as [|x l IH]; cbn; [auto|].
  intros H. inversion H as [|? ? Hx Hl]; subst.
  destruct (p x); cbn; [|auto].
  constructor; [|auto].
  intros (y & Hy & (Hin & _)%filter_In)%in_map_iff.
  apply Hx. rewrite <- Hy. now apply in_map.
Qed.

Lemma result_names_NoDup k all :
  NoDup (workload_names k) ->
  NoDup (map pod_name (pods k)) -> NoDup (map release_name (releases k)) ->
  NoDup (map Service.name (result_records k all)).
Proof.
  intros HW HP HR.
  assert (Hj : map Service.name (joined k) = workload_names k).
  { unfold workload_names. rewrite <- (joined_one_per_row k HP HR).
    now rewrite map_map. }
  unfold result_records. destruct all.
  - now rewrite Hj.
  - apply NoDup_map_filter. now rewrite Hj.
Qed.

(* ===================================================================== *)
(** ** Rows of names that no workload has *)
(* ===================================================================== *)





(* ===================================================================== *)
(** ** Failures of the aggregation *)
(* ===================================================================== *)

(** Scenario A of the specification, with and without the filter. *)
Example scenario_A_all :
  _get_services scenario_A true =
  (all_commands,
   Returned
     (Polars.mkDataFrame service_columns
        [[Str "svcA"; Str "1.2"; Boolean true; Int 2; Str "2024-01-01 10:00:00";
          Str "imgX"];
         [Str "svcB"; Null; Boolean false; Int 0; Null; Str "imgY"]])).
Proof. reflexivity. Qed.

Example scenario_A_running :
  _get_services scenario_A false =
  (all_commands,
   Returned
     (Polars.mkDataFrame service_columns
        [[Str "svcA"; Str "1.2"; Boolean true; Int 2; Str "2024-01-01 10:00:00";
          Str "imgX"]])).
Proof. reflexivity. Qed.

(** Without any release the renaming of the release columns raises. *)
Example no_release_raises :
  _get_services no_release_cluster true = (all_commands, Raised polars_exception).
Proof. reflexivity. Qed.

(** A workload and a pod that both lack a name do not join. *)
Example unnamed_do_not_join :
  _get_services unnamed_cluster true =
  (all_commands,
   Returned
     (Polars.mkDataFrame service_columns
        [[Null; Null; Boolean false; Int 0; Null; Str "imgX"]])).
Proof. reflexivity. Qed.

(** C3.  When the deployment and the statefulset query together return no
    row, [_get_services] prints "No deployed services found" and raises
    [typer.Exit], whatever [all] is; the only commands it has run by then
    are the two workload queries, so neither the pod rows nor the release
    rows were asked for. *)
Theorem C3_empty_cluster (k : Cluster) (all : bool) :
  workload_rows k = [] ->
  _get_services k all =
    ([Ran (kubectl_get deployment); Ran (kubectl_get statefulset);
      Printed "No deployed services found"],
     Raised (typer_Exit 0))
  /\ failure (_get_services k all) = Some EmptyClusterError.
Proof.
  intros HW.
  destruct (get_services_cases k all) as [(_ & E)|[(H & _)|[(H & _)|(H & _)]]];
    [|contradiction..].
  rewrite E. split; reflexivity.
Qed.

Lemma C3_empty_cluster_witness :
  (_get_services empty_cluster true =
     ([Ran (kubectl_get deployment); Ran (kubectl_get statefulset);
       Printed "No deployed services found"],
      Raised (typer_Exit 0))
   /\ failure (_get_services empty_cluster true) = Some EmptyClusterError)
  /\ (_get_services empty_cluster false =
        ([Ran (kubectl_get deployment); Ran (kubectl_get statefulset);
          Printed "No deployed services found"],
         Raised (typer_Exit 0))
      /\ failure (_get_services empty_cluster false) = Some EmptyClusterError).
Proof.
  split.
  - apply (C3_empty_cluster empty_cluster true). reflexivity.
  - apply (C3_empty_cluster empty_cluster false). reflexivity.
Defined.





(** Without pod rows the aggregation of everything succeeds while the
    aggregation of the running services raises, where the filtered output of
    the former would be an empty frame. *)
Lemma C2_counterexample :
  outcome (_get_services no_pods_cluster true) =
    Returned
      (Polars.mkDataFrame service_columns
         [[Str "svcA"; Str "1.2"; Boolean false; Int 0; Str "2024-01-01 10:00:00";
           Str "imgX"];
          [Str "svcB"; Null; Boolean false; Int 0; Null; Str "imgY"]])
  /\ outcome (_get_services no_pods_cluster false) = Raised (typer_Exit 0)
  /\ failure (_get_services no_pods_cluster false) = Some NoRunningServicesError.
Proof. repeat split. Qed.

Lemma running_rows_service_frame l :
  running_rows (service_frame l) = map Service.to_row (List.filter Service.running l).
Proof.
  unfold running_rows, service_frame. cbn [Polars.columns Polars.rows].
  rewrite filter_map_comm. f_equal. apply filter_ext. intros s. cbn -[csv_field].
  now destruct (Service.running s).
Qed.

(** C2 (amended).  Where the aggregation of everything succeeds and the pod
    query returned at least one row, the aggregation of the running services
    returns the same columns and, of the same rows, those whose [running] is
    true, in the same order; where the pod query returned no row, it fails
    with [NoRunningServicesError] instead. *)
Theorem C2_filtering_law (k : Cluster) (df : DataFrame) :
  outcome (_get_services k true) = Returned df ->
  match pods k with
  | [] => failure (_get_services k false) = Some NoRunningServicesError
  | _ :: _ =>
      exists df', _get_services k false = (trace (_get_services k true), Returned df')
               /\ Polars.columns df' = Polars.columns df
               /\ Polars.rows df' = running_rows df
  end.
Proof.
  intros H. pose proof (get_services_returned_releases k true df H) as HR.
  apply get_services_returned in H as (HW & _ & E & ->).
  destruct (pods k) as [|p P] eqn:HP.
  - now apply no_pod_rows_fails.
  - exists (result_frame k false). rewrite E.
    rewrite (get_services_returns k false HW); [|left; congruence|assumption].
    split; [reflexivity|]. split; [reflexivity|].
    unfold result_frame at 2, result_records. now rewrite running_rows_service_frame.
Qed.

Lemma C2_filtering_law_witness :
  exists df',
    _get_services scenario_A false = (trace (_get_services scenario_A true), Returned df')
    /\ Polars.columns df' = service_columns
    /\ Polars.rows df' =
         [[Str "svcA"; Str "1.2"; Boolean true; Int 2; Str "2024-01-01 10:00:00";
           Str "imgX"]].
Proof.
  exact (C2_filtering_law scenario_A
           (Polars.mkDataFrame service_columns
              [[Str "svcA"; Str "1.2"; Boolean true; Int 2; Str "2024-01-01 10:00:00";
                Str "imgX"];
               [Str "svcB"; Null; Boolean false; Int 0; Null; Str "imgY"]])
           eq_refl).
Defined.

(* ===================================================================== *)
(** ** The records of an aggregation *)
(* ===================================================================== *)

Lemma value_eqb_csv n m :
  Polars.value_eqb (csv_field n) (csv_field m) = String.eqb n m.
Proof. destruct n, m; reflexivity. Qed.

Lemma csv_field_inj n m : csv_field n = csv_field m -> n = m.
Proof.
  intros H. apply String.eqb_eq. rewrite <- value_eqb_csv, H.
  destruct (csv_field m) as [|s|z|b]; cbn;
    [reflexivity|apply String.eqb_refl|apply Z.eqb_refl|now destruct b].
Qed.

Lemma NoDup_map_csv (l : list string) : NoDup l -> NoDup (map csv_field l).
Proof.
  induction 1 as [|x l Hx Hl IH]; cbn; constructor; [|assumption].
  intros (y & ->%csv_field_inj & Hy)%in_map_iff. contradiction.
Qed.

Lemma list_sum_const {A : Type} (c : nat) (l : list A) :
  list_sum (map (fun _ => c) l) = (List.length l * c)%nat.
Proof. unfold list_sum. induction l as [|x l IH]; cbn; [reflexivity|]. now rewrite IH. Qed.

Lemma list_sum_at_least {A : Type} (f : A -> nat) (l : list A) :
  (forall x, 1 <= f x)%nat -> (List.length l <= list_sum (map f l))%nat.
Proof.
  intros H. unfold list_sum. induction l as [|x l IH]; cbn; [lia|].
  specialize (H x). lia.
Qed.

Lemma records_of_length P R ni :
  List.length (records_of P R ni) =
  (Nat.max 1 (List.length (pods_of P (fst ni)))
   * Nat.max 1 (List.length (releases_of R (fst ni))))%nat.
Proof.
  unfold records_of. rewrite length_flat_map.
  rewrite (map_ext _ (fun _ => List.length (release_info R (fst ni))))
    by (intros; apply length_map).
  rewrite list_sum_const. f_equal.
  - unfold pod_status. destruct (pods_of P (fst ni)); [reflexivity|].
    rewrite length_map. cbn [List.length]. lia.
  - unfold release_info. destruct (releases_of R (fst ni)); [reflexivity|].
    rewrite length_map. cbn [List.length]. lia.
Qed.

Lemma records_of_name P R ni s :
  In s (records_of P R ni) -> Service.name s = fst ni /\ Service.image s = snd ni.
Proof. now intros (bz & vd & _ & _ & ->)%in_records_of. Qed.


Lemma occurrences_app v l l' :
  occurrences v (l ++ l') = (occurrences v l + occurrences v l')%nat.
Proof. unfold occurrences. now rewrite filter_app, length_app. Qed.

(** How often a name is among the records of one workload row. *)
Lemma occurrences_records_of P R ni n :
  occurrences (csv_field n)
    (map (fun s => csv_field (Service.name s)) (records_of P R ni))
  = if String.eqb n (fst ni) then List.length (records_of P R ni) else 0%nat.
Proof.
  unfold occurrences. rewrite filter_map_comm, length_map.
  rewrite (filter_ext_in _ (fun _ => String.eqb n (fst ni))).
  - destruct (String.eqb n (fst ni)).
    + f_equal. clear. induction (records_of P R ni) as [|s l IH]; cbn; congruence.
    + now rewrite filter_none.
  - intros s (-> & _)%records_of_name. apply value_eqb_csv.
Qed.

Lemma occurrences_joined k n :
  occurrences (csv_field n) (map (fun s => csv_field (Service.name s)) (joined k))
  = list_sum
      (map (fun ni =>
              if String.eqb n (fst ni)
              then (Nat.max 1 (List.length (pods_of (pods k) n))
                    * Nat.max 1 (List.length (releases_of (releases k) n)))%nat
              else 0%nat)
           (workload_rows k)).
Proof.
  unfold joined. induction (workload_rows k) as [|ni W IH]; [reflexivity|].
  cbn [flat_map map]. rewrite map_app, occurrences_app, IH, occurrences_records_of.
  change (list_sum (?x :: ?l)) with (x + list_sum l)%nat. f_equal.
  destruct (String.eqb_spec n (fst ni)) as [->|]; [|reflexivity].
  apply records_of_length.
Qed.




(** A name is returned twice when both workload kinds have it, when two pod
    rows carry it, and when two release rows carry it. *)
Lemma C5_counterexample :
  (exists df, outcome (_get_services both_kinds_cluster true) = Returned df
              /\ Polars.column df "name" = [Str "svcA"; Str "svcA"])
  /\ (exists df, outcome (_get_services two_pods_cluster true) = Returned df
                 /\ Polars.column df "name" = [Str "svcA"; Str "svcA"])
  /\ (exists df, outcome (_get_services two_releases_cluster true) = Returned df
                 /\ Polars.column df "name" = [Str "svcA"; Str "svcA"]).
Proof. repeat split; eexists; split; reflexivity. Qed.

(** C5 (amended).  When the workload rows of both kinds together, the pod
    rows and the release rows each carry pairwise distinct names, every frame
    [_get_services] returns holds each name at most once.  In general the
    aggregation of everything returns a name once per combination: for every
    workload row of that name, once per pod row of the name, or once if there
    is none, times once per release row of the name, or once if there is
    none. *)
Theorem C5_names_unique (k : Cluster) (all : bool) (df : DataFrame) :
  outcome (_get_services k all) = Returned df ->
  (NoDup (workload_names k) ->
   NoDup (map pod_name (pods k)) ->
   NoDup (map release_name (releases k)) ->
   NoDup (Polars.column df "name"))
  /\ (all = true ->
      forall n,
        occurrences (csv_field n) (Polars.column df "name") =
        list_sum
          (map (fun ni =>
                  if String.eqb n (fst ni)
                  then (Nat.max 1 (List.length (pods_of (pods k) n))
                        * Nat.max 1 (List.length (releases_of (releases k) n)))%nat
                  else 0%nat)
               (workload_rows k))).
Proof.
  intros (_ & _ & _ & ->)%get_services_returned. split.
  - intros HW HP HR.
    unfold result_frame. rewrite column_name, <- (map_map Service.name csv_field).
    apply NoDup_map_csv. now apply result_names_NoDup.
  - intros -> n. unfold result_frame, result_records. rewrite column_name.
    apply occurrences_joined.
Qed.

Lemma C5_names_unique_witness :
  (NoDup (workload_names two_pods_cluster) ->
   NoDup (map pod_name (pods two_pods_cluster)) ->
   NoDup (map release_name (releases two_pods_cluster)) ->
   NoDup (Polars.column (result_frame two_pods_cluster true) "name"))
  /\ (true = true ->
      forall n,
        occurrences (csv_field n)
          (Polars.column (result_frame two_pods_cluster true) "name") =
        list_sum
          (map (fun ni =>
                  if String.eqb n (fst ni)
                  then (Nat.max 1 (List.length (pods_of (pods two_pods_cluster) n))
                        * Nat.max 1
                            (List.length (releases_of (releases two_pods_cluster) n)))%nat
                  else 0%nat)
               (workload_rows two_pods_cluster))).
Proof.
  apply (C5_names_unique two_pods_cluster true (result_frame two_pods_cluster true)).
  reflexivity.
Defined.

Example svcA_twice :
  occurrences (Str "svcA") (Polars.column (result_frame two_pods_cluster true) "name")
  = 2%nat.
Proof. reflexivity. Qed.









(** A pod row or a release row whose name no workload has is in no record
    and raises nothing. *)
Example stray_rows_in_no_record :
  workload_names stray_cluster = ["svcA"]
  /\ _get_services stray_cluster true =
       (all_commands,
        Returned
          (Polars.mkDataFrame service_columns
             [[Str "svcA"; Str "1.2"; Boolean true; Int 2;
               Str "2024-01-01 10:00:00"; Str "imgX"]])).
Proof. split; reflexivity. Qed.




(* ===================================================================== *)
(** ** The listing *)
(* ===================================================================== *)

Lemma drop_image l :
  Polars.drop_in_place (service_frame l) "image" =
  Polars.mkDataFrame ["name"; "version"; "running"; "restarts"; "deployed"]
    (map (fun s => firstn 5 (Service.to_row s)) l).
Proof.
  unfold Polars.drop_in_place, service_frame. cbn [Polars.columns Polars.rows].
  f_equal. rewrite map_map. apply map_ext. reflexivity.
Qed.

(** C8.  After a successful aggregation every row of the frame has six
    cells and [ps] prints, with [wide] set, that frame, its columns name,
    version, running, restarts, deployed and image in this order; with [wide]
    unset it prints the frame with the first five of these columns whose rows
    are the first five cells of each row, in the same order: the same table
    without its image column. *)
Theorem C8_ps_columns (k : Cluster) (all : bool) (df : DataFrame) :
  outcome (_get_services k all) = Returned df ->
  Polars.columns df = ["name"; "version"; "running"; "restarts"; "deployed"; "image"]
  /\ (forall r, In r (Polars.rows df) -> List.length r = 6%nat)
  /\ ps k all true = (trace (_get_services k all) ++ [PrintedFrame df], Returned tt)
  /\ exists narrow,
       ps k all false = (trace (_get_services k all) ++ [PrintedFrame narrow], Returned tt)
       /\ Polars.columns narrow = ["name"; "version"; "running"; "restarts"; "deployed"]
       /\ Polars.rows narrow = map (firstn 5) (Polars.rows df)
       /\ List.length (Polars.rows narrow) = List.length (Polars.rows df)
       /\ forall c, In c (Polars.columns narrow) ->
                    Polars.column narrow c = Polars.column df c.
Proof.
  intros (_ & _ & E & ->)%get_services_returned.
  split; [reflexivity|]. split.
  { unfold result_frame, service_frame. cbn [Polars.rows].
    now intros r (s & <- & _)%in_map_iff. }
  unfold ps. rewrite E. split; [reflexivity|].
  exists (Polars.drop_in_place (result_frame k all) "image").
  split; [reflexivity|]. unfold result_frame. rewrite drop_image.
  split; [reflexivity|]. split; [|split].
  - unfold service_frame. cbn [Polars.rows]. now rewrite map_map.
  - cbn. now rewrite !length_map.
  - unfold Polars.column, service_frame. cbn [Polars.columns Polars.rows].
    intros c Hc. rewrite !map_map. apply map_ext. intros s.
    cbn in Hc. decompose [or] Hc; subst; try contradiction; reflexivity.
Qed.

Lemma C8_ps_columns_witness :
  ps scenario_A true true =
    (all_commands
     ++ [PrintedFrame
           (Polars.mkDataFrame service_columns
              [[Str "svcA"; Str "1.2"; Boolean true; Int 2;
                Str "2024-01-01 10:00:00"; Str "imgX"];
               [Str "svcB"; Null; Boolean false; Int 0; Null; Str "imgY"]])],
     Returned tt)
  /\ ps scenario_A true false =
       (all_commands
        ++ [PrintedFrame
              (Polars.mkDataFrame ["name"; "version"; "running"; "restarts"; "deployed"]
                 [[Str "svcA"; Str "1.2"; Boolean true; Int 2; Str "2024-01-01 10:00:00"];
                  [Str "svcB"; Null; Boolean false; Int 0; Null]])],
        Returned tt).
Proof.
  destruct (C8_ps_columns scenario_A true
              (Polars.mkDataFrame service_columns
                 [[Str "svcA"; Str "1.2"; Boolean true; Int 2;
                   Str "2024-01-01 10:00:00"; Str "imgX"];
                  [Str "svcB"; Null; Boolean false; Int 0; Null; Str "imgY"]])
              Logic.eq_refl)
    as (_ & _ & Hwide & narrow & Hnarrow & Hcols & Hrows & _).
  split; [exact Hwide|]. rewrite Hnarrow.
  destruct narrow as [cols rws]. cbn in Hcols, Hrows. rewrite Hcols, Hrows.
  reflexivity.
Defined.

(* ===================================================================== *)
(** ** Exit codes *)
(* ===================================================================== *)

Lemma failure_raised {A : Type} (m : M A) e :
  failure m = Some e -> exists x, outcome m = Raised x.
Proof.
  unfold failure. destruct (outcome m) as [a|x]; [discriminate|eauto].
Qed.


(** A failure of the aggregation is a [typer.Exit] of code 0. *)
Lemma failure_exit_0 k all e :
  failure (_get_services k all) = Some e ->
  outcome (_get_services k all) = Raised (typer_Exit 0).
Proof.
  destruct (get_services_cases k all)
    as [(_ & E)|[(_ & _ & _ & E)|[(_ & _ & _ & E)|(_ & _ & _ & E)]]];
    rewrite E; cbn; intros H; now try discriminate H.
Qed.

Example polars_exception_status :
  exit_status (_get_services no_release_cluster true) = 1%Z
  /\ failure (_get_services no_release_cluster true) = None.
Proof. split; reflexivity. Qed.



(* ===================================================================== *)
(** ** The monitor *)
(* ===================================================================== *)

Lemma trace_bind {A B : Type} (m : M A) (f : A -> M B) :
  trace (bind m f) =
  trace m ++ match outcome m with
             | Returned a => trace (f a)
             | Raised _ => []
             end.
Proof.
  destruct m as [tr [a|e]]; cbn; [|now rewrite app_nil_r].
  now destruct (f a).
Qed.

Lemma outcome_bind {A B : Type} (m : M A) (f : A -> M B) :
  outcome (bind m f) =
  match outcome m with
  | Returned a => outcome (f a)
  | Raised e => Raised e
  end.
Proof.
  destruct m as [tr [a|e]]; cbn; [|reflexivity].
  now destruct (f a).
Qed.

(** The number of [Slept] events of a trace. *)
Lemma slept_app (tr tr' : list event) :
  List.length (List.filter (fun e => match e with Slept => true | _ => false end) (tr ++ tr'))
  = (List.length (List.filter (fun e => match e with Slept => true | _ => false end) tr)
     + List.length (List.filter (fun e => match e with Slept => true | _ => false end) tr'))%nat.
Proof. now rewrite filter_app, length_app. Qed.

Lemma polls_bind {A B : Type} (m : M A) (f : A -> M B) :
  polls_scheduled (bind m f) =
  (polls_scheduled m
   + match outcome m with
     | Returned a => polls_scheduled (f a)
     | Raised _ => 0
     end)%nat.
Proof.
  unfold polls_scheduled. rewrite trace_bind, slept_app.
  now destruct (outcome m).
Qed.

Lemma get_services_no_sleep k all : polls_scheduled (_get_services k all) = 0%nat.
Proof.
  destruct (get_services_cases k all)
    as [(_ & E)|[(_ & _ & _ & E)|[(_ & _ & _ & E)|(_ & _ & _ & E)]]];
    now rewrite E.
Qed.

(** One turn of the refresh loop. *)
Lemma refresh_loop_cons update v poll future :
  refresh_loop update v (poll :: future) =
  (display v ;;
   emit Slept ;;
   replay (update (fst poll) (snd poll)) ;;
   match outcome (update (fst poll) (snd poll)),
         failure (update (fst poll) (snd poll)) with
   | Returned df, _ => refresh_loop update (Table df) future
   | Raised _, Some NoRunningServicesError =>
       refresh_loop update NoRunningServices future
   | Raised _, Some EmptyClusterError => emit Stopped
   | Raised e, None => raise e
   end).
Proof. reflexivity. Qed.

Lemma display_returns v : outcome (display v) = Returned tt /\ polls_scheduled (display v) = 0%nat.
Proof. now destruct v. Qed.

(** The polls of the loop over a future that begins with polls that each
    return a frame or find no running service: each of them is slept for,
    and the loop goes on with the rest. *)
Lemma refresh_loop_prefix future rest :
  (forall poll, In poll future ->
     (exists df, outcome (_get_services (fst poll) (snd poll)) = Returned df)
     \/ failure (_get_services (fst poll) (snd poll)) = Some NoRunningServicesError) ->
  forall v, exists v',
    polls_scheduled (refresh_loop _get_services v (future ++ rest))
    = (List.length future + polls_scheduled (refresh_loop _get_services v' rest))%nat
    /\ outcome (refresh_loop _get_services v (future ++ rest))
       = outcome (refresh_loop _get_services v' rest).
Proof.
  induction future as [|poll future IH]; intros Hgood v.
  - exists v. split; reflexivity.
  - assert (IH' := IH (fun p H => Hgood p (or_intror H))). clear IH.
    assert (Hp := Hgood poll (or_introl Logic.eq_refl)).
    cbn [app]. rewrite refresh_loop_cons.
    rewrite !polls_bind, !outcome_bind.
    destruct (display_returns v) as (-> & ->).
    change (outcome (emit Slept)) with (Returned tt).
    change (outcome (replay (_get_services (fst poll) (snd poll)))) with (Returned tt).
    change (polls_scheduled (emit Slept)) with 1%nat.
    change (polls_scheduled (replay (_get_services (fst poll) (snd poll))))
      with (polls_scheduled (_get_services (fst poll) (snd poll))).
    cbv beta iota.
    rewrite get_services_no_sleep.
    destruct Hp as [(df & Hdf)|Hf].
    + rewrite Hdf. destruct (IH' (Table df)) as (v' & -> & ->).
      exists v'. split; reflexivity.
    + destruct (failure_raised _ _ Hf) as (x & Hx). rewrite Hx, Hf.
      destruct (IH' NoRunningServices) as (v' & -> & ->).
      exists v'. split; reflexivity.
Qed.

(** A poll that finds the cluster empty is the last one: the polls after it
    are never made. *)
Lemma refresh_loop_stops update pE future2 :
  failure (update (fst pE) (snd pE)) = Some EmptyClusterError ->
  forall future1 v,
    refresh_loop update v (future1 ++ pE :: future2)
    = refresh_loop update v (future1 ++ [pE]).
Proof.
  intros HE. induction future1 as [|poll future1 IH]; intros v.
  - cbn [app]. rewrite !refresh_loop_cons, HE.
    destruct (failure_raised _ _ HE) as (x & ->). reflexivity.
  - cbn [app]. rewrite !refresh_loop_cons.
    destruct (outcome (update (fst poll) (snd poll))) as [df|e].
    + now rewrite IH.
    + destruct (failure (update (fst poll) (snd poll))) as [[]|]; try reflexivity.
      now rewrite IH.
Qed.

(** The loop on its last poll, one that finds the cluster empty. *)
Lemma refresh_loop_last v pE :
  failure (_get_services (fst pE) (snd pE)) = Some EmptyClusterError ->
  polls_scheduled (refresh_loop _get_services v [pE]) = 1%nat
  /\ outcome (refresh_loop _get_services v [pE]) = Returned tt.
Proof.
  intros HE. rewrite refresh_loop_cons, HE.
  destruct (failure_raised _ _ HE) as (x & Hx). rewrite Hx.
  rewrite !polls_bind, !outcome_bind.
  destruct (display_returns v) as (-> & ->).
  change (outcome (emit Slept)) with (Returned tt).
  change (outcome (replay (_get_services (fst pE) (snd pE)))) with (Returned tt).
  change (polls_scheduled (emit Slept)) with 1%nat.
  change (polls_scheduled (replay (_get_services (fst pE) (snd pE))))
    with (polls_scheduled (_get_services (fst pE) (snd pE))).
  cbv beta iota.
  rewrite get_services_no_sleep. split; reflexivity.
Qed.

(** When the first aggregation of the monitor finds no running service, the
    monitor exits with it: nothing is displayed and no poll is scheduled,
    though the next poll would have found a running service. *)
Lemma C9_counterexample :
  failure (_get_services no_pods_cluster false) = Some NoRunningServicesError
  /\ outcome (_get_services scenario_A false) =
       Returned
         (Polars.mkDataFrame service_columns
            [[Str "svcA"; Str "1.2"; Boolean true; Int 2;
              Str "2024-01-01 10:00:00"; Str "imgX"]])
  /\ monitor no_pods_cluster [(scenario_A, false); (scenario_A, false)] false =
       ([Ran (kubectl_get deployment); Ran (kubectl_get statefulset);
         Ran kubectl_get_pods; Printed "No running services found"],
        Raised (typer_Exit 0))
  /\ polls_scheduled
       (monitor no_pods_cluster [(scenario_A, false); (scenario_A, false)] false)
     = 0%nat.
Proof. repeat split. Qed.

(** C9 (amended).  [monitor] makes its first aggregation before the refresh
    loop exists: when that aggregation fails, with [NoRunningServicesError]
    as with [EmptyClusterError], the monitor ends with the same [typer.Exit]
    and schedules no poll.  When it succeeds the loop runs, each poll an
    aggregation with the [all] the application chooses: as long as every poll
    returns a frame or fails with [NoRunningServicesError], every poll is
    followed by the next one until the user quits; a poll that fails with
    [EmptyClusterError] is the last one, the loop stops after it without an
    exception. *)
Theorem C9_monitor (k : Cluster) (future : list (Cluster * bool)) (all : bool) :
  (forall e,
     failure (_get_services k all) = Some e ->
     monitor k future all = (trace (_get_services k all), Raised (typer_Exit 0))
     /\ polls_scheduled (monitor k future all) = 0%nat)
  /\ (forall df,
        outcome (_get_services k all) = Returned df ->
        (forall poll, In poll future ->
           (exists df', outcome (_get_services (fst poll) (snd poll)) = Returned df')
           \/ failure (_get_services (fst poll) (snd poll)) = Some NoRunningServicesError) ->
        (polls_scheduled (monitor k future all) = List.length future
         /\ outcome (monitor k future all) = Returned tt)
        /\ (forall pE future',
              failure (_get_services (fst pE) (snd pE)) = Some EmptyClusterError ->
              polls_scheduled (monitor k (future ++ pE :: future') all)
              = S (List.length future)
              /\ outcome (monitor k (future ++ pE :: future') all) = Returned tt))
  /\ (forall df pE future',
        outcome (_get_services k all) = Returned df ->
        failure (_get_services (fst pE) (snd pE)) = Some EmptyClusterError ->
        monitor k (future ++ pE :: future') all = monitor k (future ++ [pE]) all).
Proof.
  split; [|split].
  - intros e He.
    pose proof (get_services_no_sleep k all) as Hs.
    pose proof (failure_exit_0 k all e He) as Hx.
    unfold monitor. destruct (_get_services k all) as [tr r].
    cbn in Hx. subst r. cbn. split; [reflexivity|exact Hs].
  - intros df Hdf Hgood. split.
    + unfold monitor, MonitorApp_run.
      rewrite polls_bind, outcome_bind, Hdf, get_services_no_sleep.
      destruct (refresh_loop_prefix future [] Hgood (Table df)) as (v' & Hp & Ho).
      rewrite app_nil_r in Hp, Ho. rewrite Hp, Ho.
      destruct v'; cbn; split; lia || reflexivity.
    + intros pE future' HE. unfold monitor, MonitorApp_run.
      rewrite polls_bind, outcome_bind, Hdf, get_services_no_sleep.
      rewrite refresh_loop_stops by exact HE.
      destruct (refresh_loop_prefix future [pE] Hgood (Table df)) as (v' & -> & ->).
      destruct (refresh_loop_last v' pE HE) as (-> & ->).
      split; [lia|reflexivity].
  - intros df pE future' Hdf HE. unfold monitor, MonitorApp_run.
    destruct (_get_services k all) as [tr r]. cbn in Hdf. subst r. cbn.
    now rewrite refresh_loop_stops.
Qed.

Lemma C9_monitor_witness :
  (monitor empty_cluster [(scenario_A, true)] true =
     (trace (_get_services empty_cluster true), Raised (typer_Exit 0))
   /\ polls_scheduled (monitor empty_cluster [(scenario_A, true)] true) = 0%nat)
  /\ ((polls_scheduled
         (monitor scenario_A [(no_pods_cluster, false); (scenario_A, true)] false) = 2%nat
       /\ outcome (monitor scenario_A [(no_pods_cluster, false); (scenario_A, true)] false)
          = Returned tt)
      /\ (forall pE future',
            failure (_get_services (fst pE) (snd pE)) = Some EmptyClusterError ->
            polls_scheduled
              (monitor scenario_A
                 ([(no_pods_cluster, false); (scenario_A, true)] ++ pE :: future') false)
            = 3%nat
            /\ outcome
                 (monitor scenario_A
                    ([(no_pods_cluster, false); (scenario_A, true)] ++ pE :: future') false)
               = Returned tt))
  /\ monitor scenario_A
       ([(no_pods_cluster, false)] ++ (empty_cluster, false) :: [(scenario_A, false)]) false
     = monitor scenario_A ([(no_pods_cluster, false)] ++ [(empty_cluster, false)]) false.
Proof.
  split; [|split].
  - apply (proj1 (C9_monitor empty_cluster [(scenario_A, true)] true) EmptyClusterError).
    reflexivity.
  - apply (proj1 (proj2 (C9_monitor scenario_A
                           [(no_pods_cluster, false); (scenario_A, true)] false))
             (result_frame scenario_A false)).
    + reflexivity.
    + intros poll [<-|[<-|[]]].
      * right. reflexivity.
      * left. eexists. reflexivity.
  - apply (proj2 (proj2 (C9_monitor scenario_A [(no_pods_cluster, false)] false))
             (result_frame scenario_A false)); reflexivity.
Defined.

Example monitor_run :
  trace (monitor scenario_A
           [(no_pods_cluster, false); (empty_cluster, false); (scenario_A, false)] false) =
  all_commands
  ++ [Displayed (result_frame scenario_A false); Slept;
      Ran (kubectl_get deployment); Ran (kubectl_get statefulset);
      Ran kubectl_get_pods; Printed "No running services found";
      DisplayedNoRunning; Slept;
      Ran (kubectl_get deployment); Ran (kubectl_get statefulset);
      Printed "No deployed services found"; Stopped].
Proof. reflexivity. Qed.

(** A poll on a cluster where helm lists nothing ends the loop with the
    exception polars raises. *)
Example monitor_poll_raises :
  outcome (monitor scenario_A [(no_release_cluster, true); (scenario_A, true)] true)
  = Raised polars_exception
  /\ polls_scheduled
       (monitor scenario_A [(no_release_cluster, true); (scenario_A, true)] true)
     = 1%nat.
Proof. split; reflexivity. Qed.

(* ===================================================================== *)
(** ** More on the aggregation: where each cell comes from *)
(* ===================================================================== *)

Lemma name_match_iff n m : name_match n m = true <-> n <> "" /\ m = n.
Proof.
  unfold name_match. rewrite andb_true_iff, negb_true_iff, String.eqb_neq, String.eqb_eq.
  intuition congruence.
Qed.

Lemma filter_name_match_nil {A : Type} (key : A -> string) (l : list A) (n : string) :
  List.filter (fun x => name_match n (key x)) l = [] <->
  n = "" \/ forall x, In x l -> key x <> n.
Proof.
  split.
  - intros E. destruct (String.eqb_spec n "") as [->|Hn]; [now left|right].
    intros x Hx Hk.
    assert (H : In x (List.filter (fun y => name_match n (key y)) l)).
    { apply filter_In. split; [assumption|]. now apply name_match_iff. }
    rewrite E in H. exact H.
  - intros H. apply filter_none. intros x Hx.
    destruct (name_match n (key x)) eqn:E; [|reflexivity].
    apply name_match_iff in E as (Hn & Hk).
    destruct H as [H|H]; [contradiction|]. now apply H in Hx.
Qed.

Lemma pods_of_nil_iff P n :
  pods_of P n = [] <-> n = "" \/ forall p, In p P -> pod_name p <> n.
Proof. apply filter_name_match_nil. Qed.

Lemma releases_of_nil_iff R n :
  releases_of R n = [] <-> n = "" \/ forall h, In h R -> release_name h <> n.
Proof. apply filter_name_match_nil. Qed.

Lemma in_pod_status P n bz :
  In bz (pod_status P n) ->
  (pods_of P n = [] /\ bz = (false, 0%Z))
  \/ exists p, In p P /\ pod_name p = n /\ n <> ""
               /\ bz = (String.eqb (pod_running p) "Running",
                        match pod_restarts p with Some z => z | None => 0%Z end).
Proof.
  unfold pod_status. destruct (pods_of P n) as [|q ms] eqn:E.
  - intros [<-|[]]. now left.
  - rewrite <- E. intros (p & <- & Hp)%in_map_iff. right.
    apply filter_In in Hp as (Hp & (Hn & Hk)%name_match_iff). eauto.
Qed.

Lemma in_release_info R n vd :
  In vd (release_info R n) ->
  (releases_of R n = [] /\ vd = (None, None))
  \/ exists h, In h R /\ release_name h = n /\ n <> ""
               /\ vd = (Some (app_version h), Some (substring 0 19 (updated h))).
Proof.
  unfold release_info. destruct (releases_of R n) as [|q ms] eqn:E.
  - intros [<-|[]]. now left.
  - rewrite <- E. intros (h & <- & Hh)%in_map_iff. right.
    apply filter_In in Hh as (Hh & (Hn & Hk)%name_match_iff). eauto.
Qed.

Lemma substring_length_le (m : nat) (s : string) :
  (String.length (substring 0 m s) <= m)%nat.
Proof.
  revert s. induction m as [|m IH]; intros [|c s]; cbn; try lia.
  specialize (IH s). lia.
Qed.

Lemma in_rows_result k all r :
  In r (Polars.rows (result_frame k all)) ->
  exists s, In s (joined k) /\ r = Service.to_row s
            /\ (all = false -> Service.running s = true).
Proof.
  unfold result_frame, result_records, service_frame. cbn [Polars.rows].
  intros (s & <- & Hs)%in_map_iff. exists s. destruct all.
  - repeat split; [assumption|discriminate].
  - apply filter_In in Hs as (Hs & Hr). auto.
Qed.

(** X1.  The version and the deployment time of a record come from one and
    the same release row, which carries the record's name: the version is
    its [app_version] and the time the first 19 characters at most of its
    [updated]; or both cells are null, and then the record's name is empty,
    read as null, or no release row carries it. *)
Theorem release_cells_from_one_row (k : Cluster) (all : bool) (df : DataFrame)
  (r : Polars.row) :
  outcome (_get_services k all) = Returned df ->
  In r (Polars.rows df) ->
  exists n,
    cell df "name" r = csv_field n
    /\ ((cell df "version" r = Null /\ cell df "deployed" r = Null
         /\ (n = "" \/ forall h, In h (releases k) -> release_name h <> n))
        \/ exists h d,
             In h (releases k) /\ release_name h = n
             /\ cell df "version" r = Str (app_version h)
             /\ cell df "deployed" r = Str d
             /\ d = substring 0 19 (updated h)
             /\ (String.length d <= 19)%nat).
Proof.
  intros (_ & _ & _ & ->)%get_services_returned (s & Hs & -> & _)%in_rows_result.
  apply in_joined in Hs as (ni & _ & Hs).
  apply in_records_of in Hs as (bz & vd & _ & Hvd & ->).
  exists (fst ni). split; [reflexivity|].
  apply in_release_info in Hvd as [(E & ->)|(h & Hh & Hn & _ & ->)].
  - left. repeat split. now apply releases_of_nil_iff.
  - right. exists h, (substring 0 19 (updated h)).
    repeat split; auto. apply substring_length_le.
Qed.

Lemma release_cells_from_one_row_witness :
  exists n,
    cell (result_frame scenario_A true) "name"
      svcA_running_row
    = csv_field n
    /\ ((cell (result_frame scenario_A true) "version"
           svcA_running_row = Null
         /\ cell (result_frame scenario_A true) "deployed"
              svcA_running_row = Null
         /\ (n = "" \/ forall h, In h (releases scenario_A) -> release_name h <> n))
        \/ exists h d,
             In h (releases scenario_A) /\ release_name h = n
             /\ cell (result_frame scenario_A true) "version"
                  svcA_running_row = Str (app_version h)
             /\ cell (result_frame scenario_A true) "deployed"
                  svcA_running_row = Str d
             /\ d = substring 0 19 (updated h)
             /\ (String.length d <= 19)%nat).
Proof.
  apply (release_cells_from_one_row scenario_A true (result_frame scenario_A true)).
  - reflexivity.
  - left. reflexivity.
Defined.

(** X2.  The running flag and the restart count of a record come from one
    and the same pod row, which carries the record's name, a name that is
    not empty: the flag says whether its state is [Running] and the count is
    its restart count, 0 when the row has none; or the record has
    [running = false] and [restarts = 0], and then its name is empty, read as
    null, or no pod row carries it. *)
Theorem pod_cells_from_one_row (k : Cluster) (all : bool) (df : DataFrame)
  (r : Polars.row) :
  outcome (_get_services k all) = Returned df ->
  In r (Polars.rows df) ->
  exists n,
    cell df "name" r = csv_field n
    /\ ((cell df "running" r = Boolean false /\ cell df "restarts" r = Int 0
         /\ (n = "" \/ forall p, In p (pods k) -> pod_name p <> n))
        \/ exists p,
             In p (pods k) /\ pod_name p = n /\ n <> ""
             /\ cell df "running" r = Boolean (String.eqb (pod_running p) "Running")
             /\ cell df "restarts" r =
                  Int (match pod_restarts p with Some z => z | None => 0%Z end)).
Proof.
  intros (_ & _ & _ & ->)%get_services_returned (s & Hs & -> & _)%in_rows_result.
  apply in_joined in Hs as (ni & _ & Hs).
  apply in_records_of in Hs as (bz & vd & Hbz & _ & ->).
  exists (fst ni). split; [reflexivity|].
  apply in_pod_status in Hbz as [(E & ->)|(p & Hp & Hn & Hne & ->)].
  - left. repeat split. now apply pods_of_nil_iff.
  - right. exists p. repeat split; auto.
Qed.

Lemma pod_cells_from_one_row_witness :
  exists n,
    cell (result_frame pending_cluster true) "name"
      svcA_pending_row
    = csv_field n
    /\ ((cell (result_frame pending_cluster true) "running"
           svcA_pending_row = Boolean false
         /\ cell (result_frame pending_cluster true) "restarts"
              svcA_pending_row = Int 0
         /\ (n = "" \/ forall p, In p (pods pending_cluster) -> pod_name p <> n))
        \/ exists p,
             In p (pods pending_cluster) /\ pod_name p = n /\ n <> ""
             /\ cell (result_frame pending_cluster true) "running"
                  svcA_pending_row = Boolean (String.eqb (pod_running p) "Running")
             /\ cell (result_frame pending_cluster true) "restarts"
                  svcA_pending_row =
                  Int (match pod_restarts p with Some z => z | None => 0%Z end)).
Proof.
  apply (pod_cells_from_one_row pending_cluster true (result_frame pending_cluster true)).
  - reflexivity.
  - left. reflexivity.
Defined.

(** X3.  When the aggregation of the running services returns, the names it
    lists are exactly the workload names, not empty, that a pod row in state
    [Running] carries. *)
Theorem running_names (k : Cluster) (df : DataFrame) (n : string) :
  outcome (_get_services k false) = Returned df ->
  (In (csv_field n) (Polars.column df "name") <->
   n <> "" /\ In n (workload_names k)
   /\ exists p, In p (pods k) /\ pod_name p = n /\ pod_running p = "Running").
Proof.
  intros (_ & _ & _ & ->)%get_services_returned.
  unfold result_frame, result_records. rewrite column_name. split.
  - intros (s & <-%csv_field_inj & (Hs & Hr)%filter_In)%in_map_iff.
    split; [|split; [now apply joined_name|now apply joined_running]].
    apply in_joined in Hs as (ni & _ & Hs).
    apply in_records_of in Hs as (bz & vd & Hbz & _ & ->).
    cbn [Service.name Service.running] in *.
    apply in_pod_status in Hbz as [(_ & ->)|(p & _ & _ & Hne & _)];
      [discriminate Hr|exact Hne].
  - intros (Hne & (ni & <- & Hni)%in_map_iff & p & Hp & Hn & Hrun).
    assert (Hb : In (true, match pod_restarts p with Some z => z | None => 0%Z end)
                    (pod_status (pods k) (fst ni))).
    { unfold pod_status.
      assert (Hin : In p (pods_of (pods k) (fst ni))).
      { apply filter_In. split; [assumption|]. now apply name_match_iff. }
      destruct (pods_of (pods k) (fst ni)) as [|q ms] eqn:E; [contradiction|].
      rewrite <- E. apply in_map_iff. exists p. split; [|rewrite E; assumption].
      now rewrite Hrun. }
    destruct (release_info (releases k) (fst ni)) as [|vd l] eqn:Ev;
      [now apply release_info_nonempty in Ev|].
    apply in_map_iff.
    exists (Service.mkServiceRecord (fst ni) (fst vd) true
              (match pod_restarts p with Some z => z | None => 0%Z end) (snd vd) (snd ni)).
    split; [reflexivity|]. apply filter_In. split; [|reflexivity].
    apply in_joined. exists ni. split; [assumption|].
    apply in_records_of. eexists _, vd. split; [exact Hb|].
    split; [rewrite Ev; now left|reflexivity].
Qed.

Lemma running_names_witness :
  In (csv_field "svcA") (Polars.column (result_frame scenario_A false) "name") <->
  "svcA" <> "" /\ In "svcA" (workload_names scenario_A)
  /\ exists p, In p (pods scenario_A) /\ pod_name p = "svcA" /\ pod_running p = "Running".
Proof.
  apply (running_names scenario_A (result_frame scenario_A false) "svcA"). reflexivity.
Defined.

(** X4.  Every record has the name and the image of one workload row, an
    empty field read as null, and the aggregation of everything has a record
    for every workload row of either kind. *)
Theorem image_from_workload_row (k : Cluster) (all : bool) (df : DataFrame) :
  outcome (_get_services k all) = Returned df ->
  (forall r, In r (Polars.rows df) ->
     exists n i, cell df "name" r = csv_field n /\ cell df "image" r = csv_field i
                 /\ In (n, i) (workload_rows k))
  /\ (all = true ->
      forall n i, In (n, i) (workload_rows k) ->
        exists r, In r (Polars.rows df)
                  /\ cell df "name" r = csv_field n /\ cell df "image" r = csv_field i).
Proof.
  intros (_ & _ & _ & ->)%get_services_returned. split.
  - intros r (s & Hs & -> & _)%in_rows_result.
    apply in_joined in Hs as (ni & Hni & Hs).
    apply in_records_of in Hs as (bz & vd & _ & _ & ->).
    exists (fst ni), (snd ni). repeat split. now destruct ni.
  - intros -> n i Hni.
    destruct (joined_covers k _ Hni) as (s & Hs & Hn & Hi).
    exists (Service.to_row s). cbn in Hn, Hi. subst n i.
    split; [|split; reflexivity].
    unfold result_frame, result_records, service_frame. cbn [Polars.rows].
    now apply in_map.
Qed.

Lemma image_from_workload_row_witness :
  (forall r, In r (Polars.rows (result_frame scenario_A true)) ->
     exists n i, cell (result_frame scenario_A true) "name" r = csv_field n
                 /\ cell (result_frame scenario_A true) "image" r = csv_field i
                 /\ In (n, i) (workload_rows scenario_A))
  /\ (true = true ->
      forall n i, In (n, i) (workload_rows scenario_A) ->
        exists r, In r (Polars.rows (result_frame scenario_A true))
                  /\ cell (result_frame scenario_A true) "name" r = csv_field n
                  /\ cell (result_frame scenario_A true) "image" r = csv_field i).
Proof.
  apply (image_from_workload_row scenario_A true (result_frame scenario_A true)).
  reflexivity.
Defined.

(** X5.  The aggregation of everything returns, for each workload row, one
    record per pair of a pod row and a release row that join it, a missing
    pod row or release row counting as one: the left joins multiply rows and
    never drop one.  A row joins a workload row when it has its name and the
    name is not empty. *)
Theorem row_count (k : Cluster) (df : DataFrame) :
  outcome (_get_services k true) = Returned df ->
  List.length (Polars.rows df) =
    list_sum
      (map (fun ni =>
              (Nat.max 1 (List.length (pods_of (pods k) (fst ni)))
               * Nat.max 1 (List.length (releases_of (releases k) (fst ni))))%nat)
           (workload_rows k))
  /\ (List.length (workload_rows k) <= List.length (Polars.rows df))%nat
  /\ (forall n p, In p (pods_of (pods k) n) <->
                  In p (pods k) /\ n <> "" /\ pod_name p = n)
  /\ (forall n h, In h (releases_of (releases k) n) <->
                  In h (releases k) /\ n <> "" /\ release_name h = n).
Proof.
  intros (_ & _ & _ & ->)%get_services_returned.
  unfold result_frame, result_records, service_frame, joined. cbn [Polars.rows].
  rewrite length_map, length_flat_map.
  rewrite (map_ext _ _ (records_of_length (pods k) (releases k))).
  split; [reflexivity|]. split; [|split].
  - apply list_sum_at_least. intros ni.
    pose proof (Nat.le_max_l 1 (List.length (pods_of (pods k) (fst ni)))).
    pose proof (Nat.le_max_l 1 (List.length (releases_of (releases k) (fst ni)))).
    nia.
  - intros n p. unfold pods_of. now rewrite filter_In, name_match_iff.
  - intros n h. unfold releases_of. now rewrite filter_In, name_match_iff.
Qed.

Lemma row_count_witness :
  List.length (Polars.rows (result_frame two_pods_cluster true)) =
    list_sum
      (map (fun ni =>
              (Nat.max 1 (List.length (pods_of (pods two_pods_cluster) (fst ni)))
               * Nat.max 1
                   (List.length (releases_of (releases two_pods_cluster) (fst ni))))%nat)
           (workload_rows two_pods_cluster))
  /\ (List.length (workload_rows two_pods_cluster)
      <= List.length (Polars.rows (result_frame two_pods_cluster true)))%nat
  /\ (forall n p, In p (pods_of (pods two_pods_cluster) n) <->
                  In p (pods two_pods_cluster) /\ n <> "" /\ pod_name p = n)
  /\ (forall n h, In h (releases_of (releases two_pods_cluster) n) <->
                  In h (releases two_pods_cluster) /\ n <> "" /\ release_name h = n).
Proof.
  apply (row_count two_pods_cluster (result_frame two_pods_cluster true)). reflexivity.
Defined.

(** X6.  When the pod rows carry pairwise distinct names and so do the
    release rows, the aggregation of everything returns exactly one record
    per workload row, in the order the rows were fetched: deployments first,
    then statefulsets; an empty name or image is read as null. *)
Theorem one_record_per_workload_row (k : Cluster) (df : DataFrame) :
  NoDup (map pod_name (pods k)) ->
  NoDup (map release_name (releases k)) ->
  outcome (_get_services k true) = Returned df ->
  map (fun r => (cell df "name" r, cell df "image" r)) (Polars.rows df)
  = map (fun ni => (csv_field (fst ni), csv_field (snd ni))) (workload_rows k).
Proof.
  intros HP HR (_ & _ & _ & ->)%get_services_returned.
  rewrite <- (joined_one_per_row k HP HR).
  unfold result_frame, result_records, service_frame. cbn [Polars.rows].
  rewrite !map_map. apply map_ext. reflexivity.
Qed.

Lemma one_record_per_workload_row_witness :
  map (fun r => (cell (result_frame scenario_A true) "name" r,
                 cell (result_frame scenario_A true) "image" r))
      (Polars.rows (result_frame scenario_A true))
  = map (fun ni => (csv_field (fst ni), csv_field (snd ni))) (workload_rows scenario_A).
Proof.
  apply (one_record_per_workload_row scenario_A (result_frame scenario_A true)).
  - repeat constructor; cbn; intuition.
  - repeat constructor; cbn; intuition.
  - reflexivity.
Defined.





(* ===================================================================== *)
(** ** Python strings *)
(* ===================================================================== *)

Lemma append_empty_r (s : string) : String.append s EmptyString = s.
Proof. induction s as [|c s IH]; cbn; [reflexivity|]. now rewrite IH. Qed.

Lemma format_from_brace_free key value s rest :
  Py.brace_free s = true ->
  Py.format_from key value None (String.append s rest)
  = option_map (String.append s) (Py.format_from key value None rest).
Proof.
  induction s as [|c s IH]; cbn [Py.brace_free String.append]; intros H.
  - now destruct (Py.format_from key value None rest).
  - apply andb_prop in H as (H & Hs). apply andb_prop in H as (Ho & Hc).
    apply negb_true_iff in Ho, Hc. cbn [Py.format_from]. rewrite Ho, Hc, (IH Hs).
    now destruct (Py.format_from key value None rest).
Qed.

Lemma format_from_t value rest :
  Py.format_from "t" value None (String.append "{t}" rest)
  = option_map (String.append value) (Py.format_from "t" value None rest).
Proof. reflexivity. Qed.

(** The template of [check_service] filled in for one workload kind. *)
Lemma format_check_service_cmd t service_name namespace :
  Py.brace_free service_name = true -> Py.brace_free namespace = true ->
  Py.format (Shell.check_service_cmd service_name namespace) "t" t
  = Some (service_query t service_name namespace).
Proof.
  intros Hs Hn. unfold Py.format, Shell.check_service_cmd, service_query.
  change (String.append "kubectl get {t} -o name -n " ?x)
    with (String.append "kubectl get "
            (String.append "{t}" (String.append " -o name -n " x))).
  rewrite (format_from_brace_free "t" t "kubectl get ") by reflexivity.
  rewrite format_from_t.
  rewrite (format_from_brace_free "t" t " -o name -n ") by reflexivity.
  rewrite (format_from_brace_free "t" t namespace) by assumption.
  rewrite (format_from_brace_free "t" t " ") by reflexivity.
  rewrite (format_from_brace_free "t" t service_name) by assumption.
  rewrite <- (append_empty_r " --ignore-not-found") at 1.
  rewrite (format_from_brace_free "t" t " --ignore-not-found") by reflexivity.
  cbn [Py.format_from option_map]. now rewrite append_empty_r.
Qed.

Lemma lstrip_first s c :
  Py.first_char (Py.lstrip s) = Some c -> Py.isspace c = false.
Proof.
  induction s as [|a s IH]; cbn; [discriminate|].
  destruct (Py.isspace a) eqn:E; [assumption|].
  cbn. now intros [= <-].
Qed.

Lemma rstrip_first s c :
  Py.first_char (Py.rstrip s) = Some c -> Py.first_char s = Some c.
Proof.
  destruct s as [|a s]; cbn; [discriminate|].
  destruct (Py.rstrip s); [destruct (Py.isspace a)|]; cbn; congruence.
Qed.

Lemma rstrip_last s c :
  Py.last_char (Py.rstrip s) = Some c -> Py.isspace c = false.
Proof.
  induction s as [|a s IH]; cbn [Py.rstrip]; [discriminate|].
  destruct (Py.rstrip s) as [|b r] eqn:E.
  - destruct (Py.isspace a) eqn:Ea; cbn; [discriminate|]. now intros [= <-].
  - intros H. apply IH. exact H.
Qed.

(** A stripped string neither starts nor ends with white space. *)
Lemma strip_trimmed s :
  (forall c, Py.first_char (Py.strip s) = Some c -> Py.isspace c = false)
  /\ (forall c, Py.last_char (Py.strip s) = Some c -> Py.isspace c = false).
Proof.
  unfold Py.strip. split; intros c H.
  - apply rstrip_first in H. now apply lstrip_first in H.
  - now apply rstrip_last in H.
Qed.

(* ===================================================================== *)
(** ** Checking the namespace and the service *)
(* ===================================================================== *)

Lemma shell_bind_ret {A B : Type} (a : A) (f : A -> Shell.Sh B) :
  Shell.bind (Shell.ret a) f = f a.
Proof. unfold Shell.bind, Shell.ret. now destruct (f a). Qed.

Lemma check_service_for_step w service_name namespace t ts :
  Py.brace_free service_name = true -> Py.brace_free namespace = true ->
  Shell.check_service_for w service_name namespace (t :: ts) =
  Shell.bind
    (Shell.run_command w (service_query t service_name namespace) (Some false) (Some true))
    (fun result =>
       if Py.truthy result then Shell.ret result
       else Shell.check_service_for w service_name namespace ts).
Proof.
  intros Hs Hn. cbn [Shell.check_service_for]. unfold Shell.format.
  rewrite format_check_service_cmd by assumption.
  now rewrite shell_bind_ret.
Qed.

(** X9.  [check_service] asks for the statefulset of the name first and for
    the deployment only when the first answer is empty; it returns the first
    answer that is not empty, stripped, and when both are empty it logs that
    the service does not exist and raises [typer.Exit(1)]. *)
Theorem check_service_statefulset_first (w : Shell.World) (service_name namespace : string) :
  Py.brace_free service_name = true -> Py.brace_free namespace = true ->
  Shell.check_service w service_name namespace =
  let q_sts := service_query "statefulset" service_name namespace in
  let q_dep := service_query "deployment" service_name namespace in
  if Py.truthy (Shell.output w q_sts) then
    ([Shell.Ran q_sts (Some false) (Some true)],
     Shell.Done (Py.strip (Shell.output w q_sts)))
  else if Py.truthy (Shell.output w q_dep) then
    ([Shell.Ran q_sts (Some false) (Some true); Shell.Ran q_dep (Some false) (Some true)],
     Shell.Done (Py.strip (Shell.output w q_dep)))
  else
    ([Shell.Ran q_sts (Some false) (Some true); Shell.Ran q_dep (Some false) (Some true);
      Shell.LogError
        (String.append service_name (String.append " does not exist in domain " namespace))],
     Shell.Raised (Shell.Exit 1)).
Proof.
  intros Hs Hn. unfold Shell.check_service.
  rewrite !check_service_for_step by assumption.
  cbv zeta. unfold Shell.run_command.
  cbn [Shell.bind Shell.act Shell.ret Shell.check_service_for Shell.raise app].
  destruct (Py.truthy (Shell.output w (service_query "statefulset" service_name namespace)));
    [reflexivity|].
  destruct (Py.truthy (Shell.output w (service_query "deployment" service_name namespace)));
    reflexivity.
Qed.

Lemma check_service_statefulset_first_witness :
  Shell.check_service p45_world "bl45p-ea-ioc-01" "p45" =
  ([Shell.Ran (service_query "statefulset" "bl45p-ea-ioc-01" "p45") (Some false) (Some true)],
   Shell.Done "statefulset.apps/bl45p-ea-ioc-01").
Proof.
  apply (check_service_statefulset_first p45_world "bl45p-ea-ioc-01" "p45");
    reflexivity.
Defined.

Lemma check_service_for_result w service_name namespace ts result :
  Shell.ending (Shell.check_service_for w service_name namespace ts) = Shell.Done result ->
  Py.truthy result = true
  /\ exists cmd, In (Shell.Ran cmd (Some false) (Some true))
                    (Shell.actions (Shell.check_service_for w service_name namespace ts))
                 /\ result = Shell.output w cmd.
Proof.
  induction ts as [|t ts IH]; cbn [Shell.check_service_for]; [discriminate|].
  unfold Shell.format. destruct (Py.format _ "t" t) as [cmd|]; [|discriminate].
  unfold Shell.run_command. cbn [Shell.bind Shell.act Shell.ret app].
  destruct (Py.truthy (Shell.output w cmd)) eqn:E.
  - cbn. intros [= <-]. split; [assumption|]. exists cmd. auto.
  - destruct (Shell.check_service_for w service_name namespace ts) as [tr r] eqn:Er.
    cbn in *. intros H. destruct (IH H) as (Ht & cmd' & Hin & ->).
    split; [assumption|]. exists cmd'. auto.
Qed.

(** X10.  Whatever the names, a full name [check_service] returns is an
    answer of the cluster that was not empty, with the white space at both
    its ends removed: it neither starts nor ends with white space. *)
Theorem check_service_trimmed (w : Shell.World) (service_name namespace full : string) :
  Shell.ending (Shell.check_service w service_name namespace) = Shell.Done full ->
  (exists cmd,
     In (Shell.Ran cmd (Some false) (Some true))
        (Shell.actions (Shell.check_service w service_name namespace))
     /\ Shell.output w cmd <> EmptyString
     /\ full = Py.strip (Shell.output w cmd))
  /\ (forall c, Py.first_char full = Some c -> Py.isspace c = false)
  /\ (forall c, Py.last_char full = Some c -> Py.isspace c = false).
Proof.
  unfold Shell.check_service.
  destruct (Shell.check_service_for w service_name namespace ["statefulset"; "deployment"])
    as [tr [result|e]] eqn:E; cbn; [|discriminate].
  intros [= <-].
  destruct (check_service_for_result w service_name namespace
              ["statefulset"; "deployment"] result) as (Ht & cmd & Hin & ->).
  { now rewrite E. }
  rewrite E in Hin. cbn in Hin. split.
  - exists cmd. rewrite app_nil_r. repeat split; [assumption|].
    intros H. rewrite H in Ht. discriminate.
  - apply strip_trimmed.
Qed.

Lemma check_service_trimmed_witness :
  (exists cmd,
     In (Shell.Ran cmd (Some false) (Some true))
        (Shell.actions (Shell.check_service p45_world "bl45p-ea-ioc-01" "p45"))
     /\ Shell.output p45_world cmd <> EmptyString
     /\ "statefulset.apps/bl45p-ea-ioc-01" = Py.strip (Shell.output p45_world cmd))
  /\ (forall c, Py.first_char "statefulset.apps/bl45p-ea-ioc-01" = Some c ->
                Py.isspace c = false)
  /\ (forall c, Py.last_char "statefulset.apps/bl45p-ea-ioc-01" = Some c ->
                Py.isspace c = false).
Proof.
  apply (check_service_trimmed p45_world "bl45p-ea-ioc-01" "p45"). reflexivity.
Defined.

(** X11.  [check_namespace] returns exactly when the namespace is given, is
    not empty, and the answer to the query for it does not contain
    [NotFound]; in every other case it raises [typer.Exit(1)], and for a
    missing or empty namespace it does so without running a command. *)
Theorem check_namespace_accepts (w : Shell.World) (namespace : option string) :
  (Shell.ending (Shell.check_namespace w namespace) = Shell.Done tt <->
   exists ns,
     namespace = Some ns /\ ns <> EmptyString
     /\ Py.contains "NotFound"
          (Shell.output w (String.append "kubectl get namespace "
                             (String.append ns " -o name"))) = false)
  /\ (Shell.ending (Shell.check_namespace w namespace) = Shell.Done tt
      \/ Shell.ending (Shell.check_namespace w namespace) = Shell.Raised (Shell.Exit 1))
  /\ (namespace = None \/ namespace = Some EmptyString ->
      Shell.commands (Shell.check_namespace w namespace) = []).
Proof.
  destruct namespace as [[|c ns]|].
  - cbn. repeat split; auto.
    + discriminate.
    + intros (ns & [= <-] & H & _). now contradiction H.
  - unfold Shell.check_namespace, Shell.run_command, Shell.ending, Shell.commands,
      Shell.actions.
    cbn [Shell.bind Shell.act Shell.ret app].
    destruct (Py.contains "NotFound" _) eqn:E;
      cbn [Shell.bind Shell.act Shell.ret Shell.raise app fst snd].
    + repeat split; auto; try discriminate.
      * intros (ns' & [= <-] & _ & H). congruence.
      * intros [H|H]; discriminate.
    + repeat split; auto.
      * intros _. exists (String c ns). repeat split; [discriminate|assumption].
      * intros [H|H]; discriminate.
  - cbn. repeat split; auto.
    + discriminate.
    + intros (ns & H & _). discriminate.
Qed.

Lemma check_namespace_accepts_witness :
  Shell.commands (Shell.check_namespace p45_world (Some EmptyString)) = [].
Proof.
  apply (proj2 (proj2 (check_namespace_accepts p45_world (Some EmptyString)))).
  right. reflexivity.
Defined.

(* ===================================================================== *)
(** ** Instances of K8sCommands *)
(* ===================================================================== *)

Lemma check_namespace_eq w ns :
  Shell.check_namespace w (Some ns) =
  match ns with
  | EmptyString =>
      ([Shell.LogError "Please set EC_K8S_NAMESPACE or pass --namespace"],
       Shell.Raised (Shell.Exit 1))
  | String _ _ =>
      let q := String.append "kubectl get namespace " (String.append ns " -o name") in
      if Py.contains "NotFound" (Shell.output w q) then
        ([Shell.Ran q (Some false) (Some true);
          Shell.LogError
            (String.append "namespace "
               (String.append ns
                  (String.append " not found - please check "
                     "~/.kube/config or change EC_K8S_NAMESPACE")))],
         Shell.Raised (Shell.Exit 1))
      else
        ([Shell.Ran q (Some false) (Some true);
          Shell.LogInfo (String.append "domain = " ns)],
         Shell.Done tt)
  end.
Proof.
  destruct ns as [|c ns]; [reflexivity|].
  unfold Shell.check_namespace, Shell.run_command.
  cbn [Shell.bind Shell.act Shell.ret app]. cbv zeta.
  now destruct (Py.contains "NotFound" _).
Qed.

Lemma init_done w c name check self :
  Shell.ending (Shell.__init__ w (Some c) name check) = Shell.Done self ->
  Shell.ctx_namespace c <> EmptyString
  /\ Py.contains "NotFound"
       (Shell.output w (String.append "kubectl get namespace "
                          (String.append (Shell.ctx_namespace c) " -o name"))) = false
  /\ ((negb (String.eqb name "") && check = true
       /\ exists f, Shell.ending (Shell.check_service w name (Shell.ctx_namespace c))
                    = Shell.Done f
                    /\ self = Shell.mkK8sCommands (Shell.ctx_namespace c)
                                (Shell.ctx_beamline_repo c) (Some f) name)
      \/ (negb (String.eqb name "") && check = false
          /\ self = Shell.mkK8sCommands (Shell.ctx_namespace c)
                      (Shell.ctx_beamline_repo c) None name)).
Proof.
  unfold Shell.__init__. cbv zeta. rewrite check_namespace_eq.
  destruct (Shell.ctx_namespace c) as [|a ns] eqn:En; [discriminate|].
  cbv zeta. destruct (Py.contains "NotFound" _) eqn:E; [discriminate|].
  cbn [Shell.bind]. intros H. split; [discriminate|]. split; [reflexivity|].
  destruct (negb (String.eqb name "") && check) eqn:Ec.
  - left. split; [reflexivity|].
    destruct (Shell.check_service w name (String a ns)) as [tr [f|e]]; cbn in H;
      [|discriminate].
    injection H as <-. exists f. split; reflexivity.
  - right. split; [reflexivity|]. cbn in H. now injection H as <-.
Qed.

(** X12.  An instance that [__init__] returns for a context has the
    context's namespace, which is not empty and which the cluster did not
    answer [NotFound] for, and the service name it was given.  Its full name
    is assigned exactly when the service name is not empty and [check] is set,
    and is then what [check_service] returns for that name in that
    namespace. *)
Theorem init_validates (w : Shell.World) (c : Shell.Context) (name : string)
  (check : bool) (self : Shell.K8sCommands) :
  Shell.ending (Shell.__init__ w (Some c) name check) = Shell.Done self ->
  Shell.namespace self = Shell.ctx_namespace c
  /\ Shell.beamline_repo self = Shell.ctx_beamline_repo c
  /\ Shell.service_name self = name
  /\ Shell.namespace self <> EmptyString
  /\ Py.contains "NotFound"
       (Shell.output w (String.append "kubectl get namespace "
                          (String.append (Shell.namespace self) " -o name"))) = false
  /\ (Shell.fullname self = None <-> name = EmptyString \/ check = false)
  /\ (forall f, Shell.fullname self = Some f ->
        Shell.ending (Shell.check_service w name (Shell.namespace self)) = Shell.Done f).
Proof.
  intros (Hne & Hnf & [(Hc & f & Hf & ->)|(Hc & ->)])%init_done; cbn;
    repeat split; auto; try discriminate.
  - apply andb_prop in Hc as (Hn%negb_true_iff%String.eqb_neq & ->).
    intros [H|H]; [contradiction|discriminate].
  - now intros g [= <-].
  - intros _. apply andb_false_iff in Hc as [Hc|Hc]; [left|now right].
    now apply negb_false_iff, String.eqb_eq in Hc.
Qed.

Lemma init_validates_witness :
  Shell.namespace
    (Shell.mkK8sCommands "p45" "repo" (Some "statefulset.apps/bl45p-ea-ioc-01")
       "bl45p-ea-ioc-01") = "p45"
  /\ Shell.beamline_repo
       (Shell.mkK8sCommands "p45" "repo" (Some "statefulset.apps/bl45p-ea-ioc-01")
          "bl45p-ea-ioc-01") = "repo"
  /\ Shell.service_name
       (Shell.mkK8sCommands "p45" "repo" (Some "statefulset.apps/bl45p-ea-ioc-01")
          "bl45p-ea-ioc-01") = "bl45p-ea-ioc-01".
Proof.
  pose proof (init_validates p45_world (Shell.mkContext "p45" "repo") "bl45p-ea-ioc-01" true
                (Shell.mkK8sCommands "p45" "repo" (Some "statefulset.apps/bl45p-ea-ioc-01")
                   "bl45p-ea-ioc-01") Logic.eq_refl) as (H1 & H2 & H3 & _).
  exact (conj H1 (conj H2 H3)).
Defined.

Lemma init_without_check w ctx name check self :
  ctx = None \/ name = EmptyString \/ check = false ->
  Shell.ending (Shell.__init__ w ctx name check) = Shell.Done self ->
  Shell.fullname self = None.
Proof.
  intros Hu H. destruct ctx as [c|].
  - apply init_done in H as (_ & _ & [(Hc & _)|(_ & ->)]); [|reflexivity].
    apply andb_prop in Hc as (Hn%negb_true_iff%String.eqb_neq & ->).
    destruct Hu as [Hu|[Hu|Hu]]; [discriminate|contradiction|discriminate].
  - cbn in H. now injection H as <-.
Qed.

(** X13.  An instance made without a context, with an empty service name or
    with [check] unset has no full name: [attach], [exec], [logs], [start]
    and [stop] on it raise [AttributeError] before they run any command,
    while [restart], which goes by the service name, runs its two commands,
    the second one on whatever the first one answered. *)
Theorem unchecked_instance (w : Shell.World) (ctx : option Shell.Context)
  (name : string) (check : bool) (self : Shell.K8sCommands) :
  ctx = None \/ name = EmptyString \/ check = false ->
  Shell.ending (Shell.__init__ w ctx name check) = Shell.Done self ->
  Shell.attach w self = ([], Shell.Raised (Shell.AttributeError "fullname"))
  /\ Shell.exec w self = ([], Shell.Raised (Shell.AttributeError "fullname"))
  /\ (forall prev follow,
        Shell.logs w self prev follow = ([], Shell.Raised (Shell.AttributeError "fullname")))
  /\ Shell.start w self = ([], Shell.Raised (Shell.AttributeError "fullname"))
  /\ Shell.stop w self = ([], Shell.Raised (Shell.AttributeError "fullname"))
  /\ Shell.ending (Shell.restart w self) = Shell.Done tt
  /\ Shell.commands (Shell.restart w self) =
       let get := String.append "kubectl get -n "
                    (String.append (Shell.namespace self)
                       (String.append " pod -l app="
                          (String.append (Shell.service_name self) " -o name"))) in
       [get;
        String.append "kubectl delete -n "
          (String.append (Shell.namespace self)
             (String.append " " (Shell.output w get)))].
Proof.
  intros Hu H. pose proof (init_without_check w ctx name check self Hu H) as Hf.
  unfold Shell.attach, Shell.exec, Shell.logs, Shell.start, Shell.stop, Shell.self_fullname.
  rewrite Hf. repeat split.
Qed.

Lemma unchecked_instance_witness :
  Shell.start p45_world (Shell.mkK8sCommands "p45" "repo" None "bl45p-ea-ioc-01")
  = ([], Shell.Raised (Shell.AttributeError "fullname")).
Proof.
  apply (unchecked_instance p45_world (Some (Shell.mkContext "p45" "repo"))
           "bl45p-ea-ioc-01" false
           (Shell.mkK8sCommands "p45" "repo" None "bl45p-ea-ioc-01")).
  - right. right. reflexivity.
  - reflexivity.
Defined.

Lemma format_from_service_name value rest :
  Py.format_from "service_name" value None (String.append "{service_name}" rest)
  = option_map (String.append value) (Py.format_from "service_name" value None rest).
Proof. reflexivity. Qed.

(** X14.  [log_history] opens the log address made from [EC_LOG_URL] by
    putting the service name in the place of [{service_name}], for a setting
    that has no other brace, and runs no command; when [EC_LOG_URL] is not
    set or is empty it logs an error and raises [typer.Exit(1)] without
    opening anything. *)
Theorem log_history_url (w : Shell.World) (self : Shell.K8sCommands) :
  (forall before after,
     Py.brace_free before = true -> Py.brace_free after = true ->
     Shell.EC_LOG_URL w
     = Some (String.append before (String.append "{service_name}" after)) ->
     Shell.log_history w self =
       ([Shell.Opened
           (String.append before (String.append (Shell.service_name self) after))],
        Shell.Done tt))
  /\ (Shell.EC_LOG_URL w = None \/ Shell.EC_LOG_URL w = Some EmptyString ->
      Shell.log_history w self =
        ([Shell.LogError "EC_LOG_URL environment not set"], Shell.Raised (Shell.Exit 1))).
Proof.
  split.
  - intros before after Hb Ha E. unfold Shell.log_history. rewrite E.
    assert (Hf : Shell.format
                   (String.append before (String.append "{service_name}" after))
                   "service_name" (Shell.service_name self)
                 = Shell.ret (String.append before
                                (String.append (Shell.service_name self) after))).
    { unfold Shell.format, Py.format.
      rewrite (format_from_brace_free _ _ before) by assumption.
      rewrite format_from_service_name.
      rewrite <- (append_empty_r after) at 1.
      rewrite (format_from_brace_free _ _ after) by assumption.
      cbn [Py.format_from option_map]. now rewrite append_empty_r. }
    destruct before as [|c before]; cbn [String.append] in *; rewrite Hf; reflexivity.
  - unfold Shell.log_history. intros [-> | ->]; reflexivity.
Qed.

Lemma log_history_url_witness :
  Shell.log_history
    (Shell.mkWorld (fun _ => EmptyString) (fun _ => true)
       (Some "https://graylog/search?q=pod_name:{service_name}*&rangetype=relative"))
    (Shell.mkK8sCommands "p45" "repo" None "bl45p-ea-ioc-01")
  = ([Shell.Opened "https://graylog/search?q=pod_name:bl45p-ea-ioc-01*&rangetype=relative"],
     Shell.Done tt).
Proof.
  apply (proj1 (log_history_url
                  (Shell.mkWorld (fun _ => EmptyString) (fun _ => true)
                     (Some "https://graylog/search?q=pod_name:{service_name}*&rangetype=relative"))
                  (Shell.mkK8sCommands "p45" "repo" None "bl45p-ea-ioc-01"))
           "https://graylog/search?q=pod_name:" "*&rangetype=relative");
    reflexivity.
Defined.
